(** * powerlibs.django.restless.modelviews

    A shallow embedding of [modelviews.py]: the form resolver [_get_form],
    the gating decorator [method], and the handlers of [ListEndpoint] and
    [DetailEndpoint], together with the properties of these functions.

    Python values are an inductive type, handlers are functions in a
    state-and-exception monad over the database, and the collaborators the
    module imports (Django's ORM, model forms, the serializer) are an
    interface the development is parametric in. *)

From Stdlib Require Import ZArith String Ascii List Bool Lia.
From stdpp Require Import gmap strings list.

Set Warnings "-register-all".

Local Open Scope string_scope.
Local Open Scope list_scope.
Local Open Scope Z_scope.

(** ** Python values *)

(** The JSON-like values a request payload, a URL argument or a model
    attribute can hold. A [VDict] keeps its items in insertion order. *)
Inductive Value : Type :=
| VNone
| VBool (b : bool)
| VInt (z : Z)
| VStr (s : string)
| VList (l : list Value)
| VTuple (l : list Value)
| VDict (items : list (string * Value)).

(** Python truth value of [v], as used by [or] and [if]. *)
Definition truthy (v : Value) : bool :=
  match v with
  | VNone => false
  | VBool b => b
  | VInt z => negb (z =? 0)
  | VStr s => negb (String.eqb s "")
  | VList l | VTuple l => negb (Nat.eqb (List.length l) 0)
  | VDict items => negb (Nat.eqb (List.length items) 0)
  end.

(** [type(v).__name__] *)
Definition type_name (v : Value) : string :=
  match v with
  | VNone => "NoneType"
  | VBool _ => "bool"
  | VInt _ => "int"
  | VStr _ => "str"
  | VList _ => "list"
  | VTuple _ => "tuple"
  | VDict _ => "dict"
  end.

(** [v or None] *)
Definition or_None (v : Value) : Value := if truthy v then v else VNone.

(** [isinstance(v, (list, tuple))], with the elements when it holds. *)
Definition as_list_or_tuple (v : Value) : option (list Value) :=
  match v with
  | VList l | VTuple l => Some l
  | _ => None
  end.

Definition is_list_or_tuple (v : Value) : bool :=
  match as_list_or_tuple v with Some _ => true | None => false end.

(** [str.upper()] on ASCII text. *)
Definition upper_ascii (c : ascii) : ascii :=
  let n := nat_of_ascii c in
  if (Nat.leb 97 n && Nat.leb n 122)%bool then ascii_of_nat (n - 32) else c.

Fixpoint upper (s : string) : string :=
  match s with
  | EmptyString => EmptyString
  | String c s' => String (upper_ascii c) (upper s')
  end.

(** A model instance is a Python object: its attribute dictionary. *)
Abbreviation Instance := (gmap string Value).

(** [setattr(instance, key, value)] *)
Definition setattr (instance : Instance) (key : string) (value : Value) : Instance :=
  <[key := value]> instance.

(** Keyword arguments captured from the URL pattern. *)
Abbreviation Kwargs := (gmap string Value).

(** ** Exceptions and results *)

(** What [Model.objects.get] raises. *)
Inductive OrmExn : Type :=
| DoesNotExist
| MultipleObjectsReturned
| FieldError.

Inductive Exn : Type :=
| HttpError (code : Z) (reason : string) (errors : option Value)
| NotImplementedError (msg : string)
| UnboundLocalError (name : string)
| TypeError (msg : string)
| AttributeError (msg : string)
| OrmError (e : OrmExn).

(** What calling a value raises: none of the values is callable. *)
Definition not_callable (v : Value) : Exn :=
  TypeError ("'" ++ type_name v ++ "' object is not callable").

Definition is_HttpError (e : Exn) : bool :=
  match e with HttpError _ _ _ => true | _ => false end.

Inductive Outcome (A : Type) : Type :=
| Return (a : A)
| Raise (e : Exn).
Arguments Return {A} a.
Arguments Raise {A} e.

(** What a handler hands back to the dispatcher: one of the two response
    classes of [.http] this module builds, or plain data. *)
Inductive Ret : Type :=
| Http200 (body : Value)
| Http201 (body : Value)
| PyData (v : Value).

(** [isinstance(ret, (Http201, Http200))] *)
Definition is_Http201_or_Http200 (ret : Ret) : bool :=
  match ret with
  | Http200 _ | Http201 _ => true
  | PyData _ => false
  end.

(** The argument of [serialize]: one object or a queryset. *)
Inductive Objs : Type :=
| OneObj (obj : Instance)
| QuerySet (objs : list Instance).

(** The request attributes the module reads or rebinds. *)
Record Request : Type := mkRequest {
  POST : Value;
  data : Value;
  FILES : Value
}.

(** [new_request = copy(request); new_request.POST = entry;
    new_request.data = entry]: a shallow copy shares every other attribute
    and the two rebinds do not touch the original. *)
Definition copy_with_entry (request : Request) (entry : Value) : Request :=
  {| POST := entry; data := entry; FILES := FILES request |}.

(** ** The collaborators *)

(** A model class, as far as the module uses it: [objects.all()] and
    [objects.get] with one keyword lookup [field=value], on a database of type [D]. *)
Record ModelClass (D : Type) : Type := {
  objects_all : D -> list Instance;
  objects_get : string -> Value -> D -> Instance + OrmExn
}.
Arguments objects_all {D} _ _.
Arguments objects_get {D} _ _ _ _.

(** A form object: [is_valid()], [errors] and [save()]. Only [save]
    writes to the database. *)
Record BoundForm (D : Type) : Type := {
  is_valid : D -> bool;
  errors : D -> Value;
  form_save : D -> Instance * D
}.
Arguments is_valid {D} _ _.
Arguments errors {D} _ _.
Arguments form_save {D} _ _.

(** A form class is called as [Form(data, files, instance=...)]. *)
Definition FormClass (D : Type) : Type :=
  Value -> Value -> option Instance -> BoundForm D.

(** Everything the module imports from Django and from its sibling modules
    [.models]: the version tuple, [modelform_factory], [serialize], and what
    the class of the model instances defines: the methods [save()], which
    may raise, and [delete()], and its data descriptors (properties,
    related-object descriptors), whose setters [setattr] runs in place of
    a plain store. *)
Class Django : Type := {
  DB : Type;
  VERSION : Z * Z;
  modelform_factory : ModelClass DB -> option string -> FormClass DB;
  models_serialize : Objs -> Value;
  instance_save : Instance -> DB -> Outcome Instance * DB;
  instance_delete : Instance -> DB -> DB;
  descriptor_set : string -> option (Instance -> Value -> Outcome Instance)
}.

(** ** The handler monad *)

(** Calls into the collaborators that the properties below speak about. *)
Inductive Event : Type :=
| EvResolved (instance : Instance)
| EvValidate
| EvMutate.

Record State (D : Type) : Type := mkState {
  db : D;
  trace : list Event
}.
Arguments mkState {D} db trace.
Arguments db {D} _.
Arguments trace {D} _.

(** A computation reads and writes the state and returns or raises. The
    state reached when an exception is raised is kept: nothing is rolled
    back. *)
Definition M (D A : Type) : Type := State D -> Outcome A * State D.

Definition ret {D A} (a : A) : M D A := fun st => (Return a, st).
Definition raise {D A} (e : Exn) : M D A := fun st => (Raise e, st).
Definition bind {D A B} (m : M D A) (k : A -> M D B) : M D B :=
  fun st =>
    match m st with
    | (Return a, st') => k a st'
    | (Raise e, st') => (Raise e, st')
    end.
Definition lift {D A} (o : Outcome A) : M D A := fun st => (o, st).
Definition log {D} (ev : Event) : M D unit :=
  fun st => (Return tt, mkState (db st) (trace st ++ [ev])).

Notation "'do' x <- m ; k" := (bind m (fun x => k))
  (at level 10, x name, m at level 100, k at level 200).

(** [try: body except DoesNotExist: handler] *)
Definition try_except_DoesNotExist {D A} (body handler : M D A) : M D A :=
  fun st =>
    match body st with
    | (Raise (OrmError DoesNotExist), st') => handler st'
    | r => r
    end.

(** Reading a local variable: [None] is a name no statement has bound. *)
Definition read_local {D A} (name : string) (binding : option A) : M D A :=
  match binding with
  | Some v => ret v
  | None => raise (UnboundLocalError name)
  end.

(** [payload.items()] *)
Definition dict_items (v : Value) : Outcome (list (string * Value)) :=
  match v with
  | VDict items => Return items
  | _ => Raise (AttributeError "items")
  end.

(** [kwargs.get(key)] *)
Definition kwargs_get (kwargs : Kwargs) (key : string) : Value :=
  match kwargs !! key with
  | Some v => v
  | None => VNone
  end.

(** [VERSION[:2] >= (1, 8)], the lexicographic order on pairs. *)
Definition version_ge (v w : Z * Z) : bool :=
  (fst w <? fst v) || ((fst v =? fst w) && (snd w <=? snd v)).

Section Handlers.
Context `{Django}.

(** The calls into the collaborators, each recorded in the trace. *)
Definition call_is_valid (form : BoundForm DB) : M DB bool :=
  do _ <- log EvValidate; fun st => (Return (is_valid form (db st)), st).

Definition read_errors (form : BoundForm DB) : M DB Value :=
  fun st => (Return (errors form (db st)), st).

Definition call_form_save (form : BoundForm DB) : M DB Instance :=
  do _ <- log EvMutate;
  fun st => let '(obj, d) := form_save form (db st) in
            (Return obj, mkState d (trace st)).

Definition call_instance_save (instance : Instance) : M DB Instance :=
  do _ <- log EvMutate;
  fun st => let '(outcome, d) := instance_save instance (db st) in
            (outcome, mkState d (trace st)).

(** [setattr(instance, key, value)] on a model instance: a data descriptor
    of the class named [key] takes the assignment, otherwise the value is
    stored in the attribute dictionary. *)
Definition setattr_on_instance (instance : Instance) (key : string) (value : Value)
  : Outcome Instance :=
  match descriptor_set key with
  | Some set => set instance value
  | None => Return (setattr instance key value)
  end.

(** [instance.save()]: the name is looked up on the instance first, so an
    attribute called [save] hides the method of the class, and calling
    the value found there raises. *)
Definition lookup_and_call_save (instance : Instance) : M DB Instance :=
  match instance !! "save" with
  | Some v => raise (not_callable v)
  | None => call_instance_save instance
  end.

Definition call_instance_delete (instance : Instance) : M DB unit :=
  do _ <- log EvMutate;
  fun st => (Return tt, mkState (instance_delete instance (db st)) (trace st)).

Definition call_objects_get (m : ModelClass DB) (field : string) (v : Value)
  : M DB Instance :=
  fun st =>
    match objects_get m field v (db st) with
    | inl instance => (Return instance, st)
    | inr e => (Raise (OrmError e), st)
    end.

Definition call_objects_all (m : ModelClass DB) : M DB (list Instance) :=
  fun st => (Return (objects_all m (db st)), st).

(** ** [_get_form] *)
Definition _get_form (form : option (FormClass DB)) (model : option (ModelClass DB))
  : Outcome (FormClass DB) :=
  let mf :=
    if version_ge VERSION (1, 8)
    then fun model => modelform_factory model (Some "__all__")
    else fun model => modelform_factory model None in
  match form with
  | Some form => Return form
  | None =>
      match model with
      | Some model => Return (mf model)
      | None => Raise (NotImplementedError "Form or Model class not specified")
      end
  end.

(** ** [method] *)

(** A function object: its [__name__] and its code, which takes [self]
    first. *)
Record PyFunction (Self : Type) : Type := {
  __name__ : string;
  __call__ : Self -> Request -> list Value -> Kwargs -> M DB Ret
}.
Arguments __name__ {Self} _.
Arguments __call__ {Self} _ _ _ _ _.

(** A class attribute holding what a decorator returned: a function, or
    Python's [None]. *)
Definition Attribute (Self : Type) : Type :=
  option (Self -> Request -> list Value -> Kwargs -> M DB Ret).

(** [method] defines [new_method] and falls off its end without a
    [return]: the value of the call is [None]. [methods_of] is the
    attribute access [self.methods]. *)
Definition method {Self : Type} (methods_of : Self -> list string)
    (the_real_method : PyFunction Self) : Attribute Self :=
  let new_method :=
    fun (self : Self) (request : Request) (args : list Value) (kwargs : Kwargs) =>
      if negb (existsb (String.eqb (upper (__name__ the_real_method))) (methods_of self))
      then raise (HttpError 405 "Method Not Allowed" None)
      else __call__ the_real_method self request args kwargs in
  None.

(** [self.name(request, *args, **kwargs)] for a class attribute. *)
Definition call_attribute {Self : Type} (attr : Attribute Self) (self : Self)
    (request : Request) (args : list Value) (kwargs : Kwargs) : M DB Ret :=
  match attr with
  | Some f => f self request args kwargs
  | None => raise (TypeError "'NoneType' object is not callable")
  end.
End Handlers.

Arguments __name__ {_ Self} _.
Arguments __call__ {_ Self} _ _ _ _ _.

(** ** [class ListEndpoint(Endpoint)] *)
Module ListEndpoint.
Section Class.
Context `{Django}.

(** The class attributes an endpoint object is configured with. *)
Record t : Type := {
  model : option (ModelClass DB);
  form : option (FormClass DB);
  methods : list string
}.

(** The values the class body assigns. *)
Definition defaults : t :=
  {| model := None; form := None; methods := ["GET"; "POST"] |}.

Definition get_query_set (self : t) (request : Request) (args : list Value)
    (kwargs : Kwargs) : M DB (list Instance) :=
  match model self with
  | Some m => call_objects_all m
  | None => raise (HttpError 404 "Resource Not Found" None)
  end.

Definition serialize (objs : Objs) : Value := models_serialize objs.

(** [def get], the function handed to the decorator. *)
Definition get (self : t) (request : Request) (args : list Value)
    (kwargs : Kwargs) : M DB Ret :=
  do qs <- get_query_set self request args kwargs;
  ret (PyData (serialize (QuerySet qs))).

(** The [for entry in request.data] loop of [post]; [self_post] is the
    bound attribute [self.post], called with [*args] and [**kwargs]
    already supplied. *)
Fixpoint post_loop (self_post : Request -> M DB Ret) (request : Request)
    (entries : list Value) : M DB Ret :=
  match entries with
  | [] => ret (Http201 (VDict []))
  | entry :: entries' =>
      let new_request := copy_with_entry request entry in
      do r <- self_post new_request;
      if negb (is_Http201_or_Http200 r)
      then ret r
      else post_loop self_post request entries'
  end.

(** [def post], the function handed to the decorator. [post_attr] is
    the class attribute that the lookup [self.post] finds. On the path
    past the [isinstance] test no statement has bound the local name
    [entry]. *)
Definition post (post_attr : Attribute t) (self : t) (request : Request)
    (args : list Value) (kwargs : Kwargs) : M DB Ret :=
  match as_list_or_tuple (data request) with
  | Some entries =>
      post_loop (fun new_request => call_attribute post_attr self new_request args kwargs)
                request entries
  | None =>
      let entry : option Value := None in
      do Form <- lift (_get_form (form self) (model self));
      do entry_value <- read_local "entry" entry;
      let form := Form (or_None entry_value) (FILES request) None in
      do valid <- call_is_valid form;
      if negb valid
      then do errs <- read_errors form;
           raise (HttpError 400 "Invalid Data" (Some errs))
      else do obj <- call_form_save form;
           ret (Http201 (serialize (OneObj obj)))
  end.

(** The class attributes [get] and [post] after decoration. The lookup
    [self.post] inside [post] finds the attribute [post_attr] itself; a
    definition cannot mention itself, so the value [method] returns is
    written in its place, and [post_attr_unfold] shows that [post_attr]
    satisfies the recursive equation of the class body. *)
Definition get_attr : Attribute t :=
  method methods {| __name__ := "get"; __call__ := get |}.

Definition post_attr : Attribute t :=
  method methods {| __name__ := "post"; __call__ := post None |}.
End Class.
End ListEndpoint.

(** ** [class DetailEndpoint(Endpoint)] *)
Module DetailEndpoint.
Section Class.
Context `{Django}.

Record t : Type := {
  model : option (ModelClass DB);
  form : option (FormClass DB);
  lookup_field : string;
  methods : list string
}.

Definition defaults : t :=
  {| model := None; form := None; lookup_field := "pk";
     methods := ["GET"; "PUT"; "PATCH"; "DELETE"] |}.

Definition Resource_Not_Found : Exn := HttpError 404 "Resource Not Found" None.

(** A successful lookup is recorded in the trace as [EvResolved]. *)
Definition get_instance (self : t) (request : Request) (args : list Value)
    (kwargs : Kwargs) : M DB Instance :=
  match model self with
  | Some m =>
      if bool_decide (is_Some (kwargs !! lookup_field self))
      then
        do instance <-
          try_except_DoesNotExist
            (call_objects_get m (lookup_field self) (kwargs_get kwargs (lookup_field self)))
            (raise Resource_Not_Found);
        do _ <- log (EvResolved instance);
        ret instance
      else raise Resource_Not_Found
  | None => raise Resource_Not_Found
  end.

Definition serialize (obj : Instance) : Value := models_serialize (OneObj obj).

Definition get (self : t) (request : Request) (args : list Value)
    (kwargs : Kwargs) : M DB Ret :=
  do instance <- get_instance self request args kwargs;
  ret (PyData (serialize instance)).

(** [for key, value in request.data.items(): setattr(instance, key, value)]
    on the attribute dictionary alone, every key stored. *)
Definition setattr_items (instance : Instance) (items : list (string * Value))
  : Instance :=
  fold_left (fun inst kv => setattr inst (fst kv) (snd kv)) items instance.

(** The same loop on a model instance, where an assignment can run a
    setter of the class and raise; the loop ends at the first that does. *)
Fixpoint setattr_loop (instance : Instance) (items : list (string * Value))
  : Outcome Instance :=
  match items with
  | [] => Return instance
  | (key, value) :: items' =>
      match setattr_on_instance instance key value with
      | Return instance' => setattr_loop instance' items'
      | Raise e => Raise e
      end
  end.

Definition patch (self : t) (request : Request) (args : list Value)
    (kwargs : Kwargs) : M DB Ret :=
  do instance <- get_instance self request args kwargs;
  do items <- lift (dict_items (data request));
  do instance <- lift (setattr_loop instance items);
  do instance <- lookup_and_call_save instance;
  ret (Http200 (serialize instance)).

Definition put (self : t) (request : Request) (args : list Value)
    (kwargs : Kwargs) : M DB Ret :=
  do Form <- lift (_get_form (form self) (model self));
  do instance <- get_instance self request args kwargs;
  let form := Form (or_None (data request)) (FILES request) (Some instance) in
  do valid <- call_is_valid form;
  if valid
  then do obj <- call_form_save form;
       ret (Http200 (serialize obj))
  else do errs <- read_errors form;
       raise (HttpError 400 "Invalid data" (Some errs)).

Definition delete (self : t) (request : Request) (args : list Value)
    (kwargs : Kwargs) : M DB Ret :=
  do instance <- get_instance self request args kwargs;
  do _ <- call_instance_delete instance;
  ret (PyData (VDict [])).

Definition get_attr : Attribute t :=
  method methods {| __name__ := "get"; __call__ := get |}.
Definition patch_attr : Attribute t :=
  method methods {| __name__ := "patch"; __call__ := patch |}.
Definition put_attr : Attribute t :=
  method methods {| __name__ := "put"; __call__ := put |}.
Definition delete_attr : Attribute t :=
  method methods {| __name__ := "delete"; __call__ := delete |}.
End Class.
End DetailEndpoint.

(** ** The behaviour the specification words describe *)

Section AsSpecified.
Context `{Django}.

(** The gate the decorator sets out to build: [new_method], returned. *)
Definition method_as_specified {Self : Type} (methods_of : Self -> list string)
    (the_real_method : PyFunction Self) : Attribute Self :=
  Some (fun self request args kwargs =>
    if negb (existsb (String.eqb (upper (__name__ the_real_method))) (methods_of self))
    then raise (HttpError 405 "Method Not Allowed" None)
    else __call__ the_real_method self request args kwargs).

(** Full update with the validator bound to the payload itself. *)
Definition put_as_specified (self : DetailEndpoint.t) (request : Request)
    (args : list Value) (kwargs : Kwargs) : M DB Ret :=
  do Form <- lift (_get_form (DetailEndpoint.form self) (DetailEndpoint.model self));
  do instance <- DetailEndpoint.get_instance self request args kwargs;
  let form := Form (data request) (FILES request) (Some instance) in
  do valid <- call_is_valid form;
  if valid
  then do obj <- call_form_save form;
       ret (Http200 (DetailEndpoint.serialize obj))
  else do errs <- read_errors form;
       raise (HttpError 400 "Invalid data" (Some errs)).
End AsSpecified.

(** ** Trace predicates *)

(** Every validation or mutation in [t] comes after a resolved instance;
    [resolved] says whether one was resolved before [t] starts. *)
Fixpoint guarded (resolved : bool) (t : list Event) : bool :=
  match t with
  | [] => true
  | EvResolved _ :: t' => guarded true t'
  | EvValidate :: t' | EvMutate :: t' => resolved && guarded resolved t'
  end.

Definition is_EvMutate (ev : Event) : bool :=
  match ev with EvMutate => true | _ => false end.

(** A run of [m] from any state only appends to the trace, and no
    resolved instance is among what it appends. *)
Definition never_resolves {D A : Type} (m : M D A) : Prop :=
  forall st : State D,
    exists t : list Event,
      trace (snd (m st)) = trace st ++ t /\
      forall instance, ~ In (EvResolved instance) t.

(** A run of [m] from any state only appends to the trace, what it
    appends is [guarded], and the database changes only if a mutation was
    recorded. *)
Definition resolves_first {D A : Type} (m : M D A) : Prop :=
  forall st : State D,
    exists t : list Event,
      trace (snd (m st)) = trace st ++ t /\
      guarded false t = true /\
      (existsb is_EvMutate t = false -> db (snd (m st)) = db st).

(** ** A small installation, to run the handlers on *)

Module Example.

(** Equality of values, as the lookups of the example table compare them. *)
Fixpoint value_eqb (a b : Value) : bool :=
  match a, b with
  | VNone, VNone => true
  | VBool x, VBool y => Bool.eqb x y
  | VInt x, VInt y => Z.eqb x y
  | VStr x, VStr y => String.eqb x y
  | VList x, VList y | VTuple x, VTuple y =>
      (fix go (l1 l2 : list Value) : bool :=
         match l1, l2 with
         | [], [] => true
         | h1 :: t1, h2 :: t2 => value_eqb h1 h2 && go t1 t2
         | _, _ => false
         end) x y
  | VDict x, VDict y =>
      (fix go (l1 l2 : list (string * Value)) : bool :=
         match l1, l2 with
         | [], [] => true
         | (k1, h1) :: t1, (k2, h2) :: t2 =>
             String.eqb k1 k2 && value_eqb h1 h2 && go t1 t2
         | _, _ => false
         end) x y
  | _, _ => false
  end.

(** The database is one table, a list of rows. *)
Abbreviation Table := (list Instance).

Definition has_field (field : string) (v : Value) (row : Instance) : bool :=
  match row !! field with
  | Some w => value_eqb w v
  | None => false
  end.

(** [objects.get]: the row matching the lookup, [DoesNotExist] when there
    is none, [MultipleObjectsReturned] when there are several. *)
Definition table_get (field : string) (v : Value) (rows : Table)
  : Instance + OrmExn :=
  match filter (fun row => has_field field v row = true) rows with
  | [] => inr DoesNotExist
  | [row] => inl row
  | _ => inr MultipleObjectsReturned
  end.

Definition Person : ModelClass Table :=
  {| objects_all := fun rows => rows; objects_get := table_get |}.

Definition same_pk (a b : Instance) : bool :=
  match a !! "pk", b !! "pk" with
  | Some x, Some y => value_eqb x y
  | _, _ => false
  end.

(** [save()]: overwrite the row with the same primary key, else insert. *)
Definition table_save (instance : Instance) (rows : Table) : Instance * Table :=
  if existsb (same_pk instance) rows
  then (instance, map (fun row => if same_pk instance row then instance else row) rows)
  else (instance, rows ++ [instance]).

Definition table_delete (instance : Instance) (rows : Table) : Table :=
  filter (fun row => same_pk instance row = false) rows.

Definition to_json (objs : Objs) : Value :=
  match objs with
  | OneObj obj => VDict (map_to_list obj)
  | QuerySet rows => VList (map (fun row => VDict (map_to_list row)) rows)
  end.

Definition in_items (key : string) (items : list (string * Value)) : bool :=
  existsb (fun kv => String.eqb key (fst kv)) items.

Definition items_of (v : Value) : list (string * Value) :=
  match v with VDict items => items | _ => [] end.

Definition is_None (v : Value) : bool :=
  match v with VNone => true | _ => false end.

(** A model form class in the manner of Django's, with its declared
    [fields] and the [required] ones among them. The form is bound when
    data or files were passed ([data is not None or files is not None]);
    an unbound form is never valid and has no errors; a bound one is valid
    when no required field is missing; [save()] stores the declared
    fields found in the data on the instance and saves it. *)
Definition covered (fields : list string) (form_data : Value)
  : list (string * Value) :=
  filter (fun kv => existsb (String.eqb (fst kv)) fields = true) (items_of form_data).

Definition PersonForm (fields required : list string) : FormClass Table :=
  fun form_data files instance =>
    let is_bound := negb (is_None form_data) || negb (is_None files) in
    let missing :=
      filter (fun field => in_items field (items_of form_data) = false) required in
    {| is_valid := fun _ => is_bound && Nat.eqb (List.length missing) 0;
       errors := fun _ =>
         if is_bound
         then VDict (map (fun field => (field, VList [VStr "This field is required."])) missing)
         else VDict [];
       form_save := fun rows =>
         table_save
           (DetailEndpoint.setattr_items (default ∅ instance) (covered fields form_data))
           rows |}.

(** A form class that reports, as its errors, the data it was bound to. *)
Definition EchoForm : FormClass Table :=
  fun form_data files instance =>
    {| is_valid := fun _ => false;
       errors := fun _ => VDict [("bound_to", form_data)];
       form_save := fun rows => (default ∅ instance, rows) |}.

(** The data descriptors of the example class: [__class__], as on every
    Python object, whose setter refuses what is not a class. *)
Definition class_setter (key : string)
  : option (Instance -> Value -> Outcome Instance) :=
  if String.eqb key "__class__"
  then Some (fun _ _ => Raise (TypeError "__class__ must be set to a class"))
  else None.

(** A form class that declares the field [name] alone and whose [save()]
    also stamps the attribute [touched], as an overridden [save()] or a
    model field filled on every save does. *)
Definition StampForm : FormClass Table :=
  fun form_data files instance =>
    let base := PersonForm ["name"] ["name"] form_data files instance in
    {| is_valid := is_valid base;
       errors := errors base;
       form_save := fun rows =>
         table_save
           (setattr
              (DetailEndpoint.setattr_items (default ∅ instance)
                 (covered ["name"] form_data))
              "touched" (VBool true))
           rows |}.

#[export] Instance django : Django :=
  {| DB := Table;
     VERSION := (1, 11);
     modelform_factory := fun _ _ => PersonForm ["name"] ["name"];
     models_serialize := to_json;
     instance_save := fun instance rows =>
       let '(obj, rows') := table_save instance rows in (Return obj, rows');
     instance_delete := table_delete;
     descriptor_set := class_setter |}.

Definition alice : Instance := {[ "pk" := VInt 1; "name" := VStr "alice" ]}.
Definition alice2 : Instance := {[ "pk" := VInt 2; "name" := VStr "alice" ]}.
Definition bob : Instance := {[ "pk" := VInt 3; "name" := VStr "bob" ]}.

Definition start (rows : Table) : State Table := mkState rows [].

Definition json (payload : Value) : Request :=
  {| POST := VDict []; data := payload; FILES := VDict [] |}.

Definition carol : Value := VDict [("name", VStr "carol")].
Definition pk3 : Kwargs := {[ "pk" := VInt 3 ]}.
Definition not_specified : Exn :=
  NotImplementedError "Form or Model class not specified".

(** Endpoint classes over the table. *)
Definition people : DetailEndpoint.t :=
  {| DetailEndpoint.model := Some Person;
     DetailEndpoint.form := None;
     DetailEndpoint.lookup_field := "pk";
     DetailEndpoint.methods := ["GET"; "PUT"; "PATCH"; "DELETE"] |}.

Definition people_by_name : DetailEndpoint.t :=
  {| DetailEndpoint.model := Some Person;
     DetailEndpoint.form := None;
     DetailEndpoint.lookup_field := "name";
     DetailEndpoint.methods := ["GET"; "PUT"; "PATCH"; "DELETE"] |}.

Definition people_with (form : FormClass Table) : DetailEndpoint.t :=
  {| DetailEndpoint.model := Some Person;
     DetailEndpoint.form := Some form;
     DetailEndpoint.lookup_field := "pk";
     DetailEndpoint.methods := ["GET"; "PUT"; "PATCH"; "DELETE"] |}.

(** A detail endpoint with a form and no model. *)
Definition formed_only : DetailEndpoint.t :=
  {| DetailEndpoint.model := None;
     DetailEndpoint.form := Some (PersonForm ["name"] ["name"]);
     DetailEndpoint.lookup_field := "pk";
     DetailEndpoint.methods := ["GET"; "PUT"; "PATCH"; "DELETE"] |}.

(** A function to bind [self.post] to: it stores the entry as a row and
    answers 201 with the entry. *)
Definition store_entry (self : ListEndpoint.t) (request : Request)
    (args : list Value) (kwargs : Kwargs) : M Table Ret :=
  fun st =>
    (Return (Http201 (data request)),
     mkState (db st ++ [list_to_map (items_of (data request))])
             (trace st ++ [EvMutate])).

Definition people_list : ListEndpoint.t :=
  {| ListEndpoint.model := Some Person;
     ListEndpoint.form := Some (PersonForm ["name"] ["name"]);
     ListEndpoint.methods := ["GET"; "POST"] |}.

End Example.

(** * Properties *)

(** ** The decorator *)

Section MethodFacts.
Context `{Django}.

Lemma method_is_None {Self : Type} (methods_of : Self -> list string)
    (f : PyFunction Self) :
  method methods_of f = None.
Proof. reflexivity. Qed.

(** The lookup [self.post] inside [post] finds the decorated attribute. *)
Lemma post_attr_unfold :
  ListEndpoint.post_attr =
  method ListEndpoint.methods
    {| __name__ := "post"; __call__ := ListEndpoint.post ListEndpoint.post_attr |}.
Proof. reflexivity. Qed.

Lemma call_None {Self : Type} (self : Self) request args kwargs (st : State DB) :
  call_attribute None self request args kwargs st
  = (Raise (TypeError "'NoneType' object is not callable"), st).
Proof. reflexivity. Qed.

(** C1 (as the code behaves): [method] never returns [new_method], so each
    of the six decorated class attributes is [None]; calling it raises
    [TypeError] for every endpoint configuration and every request, whether
    or not the verb is in [methods]: neither the 405 error nor the wrapped
    handler's result is produced. *)
Theorem decorated_handlers_are_not_callable
    (ls : ListEndpoint.t) (ds : DetailEndpoint.t)
    (request : Request) (args : list Value) (kwargs : Kwargs) (st : State DB) :
  let not_callable := (Raise (TypeError "'NoneType' object is not callable"), st) in
  call_attribute ListEndpoint.get_attr ls request args kwargs st = not_callable /\
  call_attribute ListEndpoint.post_attr ls request args kwargs st = not_callable /\
  call_attribute DetailEndpoint.get_attr ds request args kwargs st = not_callable /\
  call_attribute DetailEndpoint.put_attr ds request args kwargs st = not_callable /\
  call_attribute DetailEndpoint.patch_attr ds request args kwargs st = not_callable /\
  call_attribute DetailEndpoint.delete_attr ds request args kwargs st = not_callable.
Proof. cbv zeta. repeat split; reflexivity. Qed.

(** The gate as specified: 405 outside the allow-list, the wrapped
    function's own result inside it. *)
Lemma method_as_specified_gates {Self : Type} (methods_of : Self -> list string)
    (f : PyFunction Self) (self : Self) request args kwargs (st : State DB) :
  call_attribute (method_as_specified methods_of f) self request args kwargs st =
  if existsb (String.eqb (upper (__name__ f))) (methods_of self)
  then __call__ f self request args kwargs st
  else (Raise (HttpError 405 "Method Not Allowed" None), st).
Proof.
  unfold call_attribute, method_as_specified.
  destruct (existsb _ _); reflexivity.
Qed.

End MethodFacts.

(** ** Form resolution *)

Section GetFormFacts.
Context `{Django}.

Lemma _get_form_explicit (f : FormClass DB) (model : option (ModelClass DB)) :
  _get_form (Some f) model = Return f.
Proof. reflexivity. Qed.

Lemma _get_form_derived (m : ModelClass DB) :
  _get_form None (Some m) =
  Return (modelform_factory m (if version_ge VERSION (1, 8) then Some "__all__" else None)).
Proof. unfold _get_form. destruct (version_ge _ _); reflexivity. Qed.

Lemma _get_form_configured (form : option (FormClass DB))
    (model : option (ModelClass DB)) :
  (is_Some form \/ is_Some model) -> exists F, _get_form form model = Return F.
Proof.
  intros [[f ->] | [m ->]].
  - eexists. apply _get_form_explicit.
  - destruct form as [f|].
    + eexists. apply _get_form_explicit.
    + eexists. apply _get_form_derived.
Qed.

Lemma _get_form_unconfigured :
  _get_form None None = Raise (NotImplementedError "Form or Model class not specified").
Proof. reflexivity. Qed.

(** C8: with neither [form] nor [model] set, form resolution raises
    [NotImplementedError], which is not an [HttpError]; the two handlers
    that resolve a form, [post] on a single-object payload and [put],
    let it through unchanged and leave the state untouched. *)
Theorem unconfigured_form_raises_NotImplementedError
    (post_attr : Attribute ListEndpoint.t)
    (ls : ListEndpoint.t) (ds : DetailEndpoint.t)
    (request : Request) (args : list Value) (kwargs : Kwargs) (st : State DB) :
  ListEndpoint.form ls = None -> ListEndpoint.model ls = None ->
  DetailEndpoint.form ds = None -> DetailEndpoint.model ds = None ->
  let e := NotImplementedError "Form or Model class not specified" in
  _get_form None None = Raise e /\
  is_HttpError e = false /\
  (as_list_or_tuple (data request) = None ->
   ListEndpoint.post post_attr ls request args kwargs st = (Raise e, st)) /\
  DetailEndpoint.put ds request args kwargs st = (Raise e, st).
Proof.
  intros Hlf Hlm Hdf Hdm e. repeat split.
  - intros Hdata. unfold ListEndpoint.post. rewrite Hdata, Hlf, Hlm. reflexivity.
  - unfold DetailEndpoint.put. rewrite Hdf, Hdm. reflexivity.
Qed.

End GetFormFacts.

(** ** [ListEndpoint.post] *)

Section PostFacts.
Context `{Django}.

(** The loop with every call succeeding: the calls run in order, each on
    the state the previous one left, and the answer is an empty 201. *)
Lemma post_loop_all_succeed (self_post : Request -> M DB Ret) (request : Request)
    (entries : list Value) (st : State DB) :
  (forall entry st0, exists r st1,
      self_post (copy_with_entry request entry) st0 = (Return r, st1) /\
      is_Http201_or_Http200 r = true) ->
  exists st', ListEndpoint.post_loop self_post request entries st
              = (Return (Http201 (VDict [])), st').
Proof.
  intros Hok. revert st. induction entries as [|entry entries IH]; intros st.
  - eexists. reflexivity.
  - destruct (Hok entry st) as (r & st1 & Hcall & Hr).
    destruct (IH st1) as (st' & Hrest).
    exists st'. cbn [ListEndpoint.post_loop]. unfold bind at 1.
    rewrite Hcall, Hr. exact Hrest.
Qed.

(** The loop stops at the first call that raises or returns something
    else than a 200 or 201, in the state that call left: what the earlier
    calls wrote stays written. *)
Lemma post_loop_stops (self_post : Request -> M DB Ret) (request : Request)
    (entry : Value) (entries : list Value) (st st1 : State DB) :
  (forall e, self_post (copy_with_entry request entry) st = (Raise e, st1) ->
     ListEndpoint.post_loop self_post request (entry :: entries) st = (Raise e, st1)) /\
  (forall r, self_post (copy_with_entry request entry) st = (Return r, st1) ->
     is_Http201_or_Http200 r = false ->
     ListEndpoint.post_loop self_post request (entry :: entries) st = (Return r, st1)) /\
  (forall r, self_post (copy_with_entry request entry) st = (Return r, st1) ->
     is_Http201_or_Http200 r = true ->
     ListEndpoint.post_loop self_post request (entry :: entries) st
     = ListEndpoint.post_loop self_post request entries st1).
Proof.
  repeat split; intros r Hcall; try intros Hr;
    cbn [ListEndpoint.post_loop]; unfold bind at 1; rewrite Hcall;
    try rewrite Hr; reflexivity.
Qed.

(** The single-object path of [post], statement by statement. *)
Lemma post_single_path (post_attr : Attribute ListEndpoint.t) (self : ListEndpoint.t)
    (request : Request) (args : list Value) (kwargs : Kwargs) (st : State DB) :
  as_list_or_tuple (data request) = None ->
  ListEndpoint.post post_attr self request args kwargs st =
  match _get_form (ListEndpoint.form self) (ListEndpoint.model self) with
  | Return _ => (Raise (UnboundLocalError "entry"), st)
  | Raise e => (Raise e, st)
  end.
Proof.
  intros Hdata. unfold ListEndpoint.post. rewrite Hdata.
  unfold bind, lift.
  destruct (_get_form _ _); reflexivity.
Qed.

(** C9 (amended): on a payload that is neither a list nor a tuple, [post]
    always raises and leaves database and trace as they were, so nothing
    is validated and nothing is saved. The exception is
    [UnboundLocalError] for the local [entry] when [form] or [model] is
    set; when neither is set, [_get_form], which runs first, has already
    raised [NotImplementedError]. *)
Theorem post_single_object_always_raises
    (post_attr : Attribute ListEndpoint.t) (self : ListEndpoint.t)
    (request : Request) (args : list Value) (kwargs : Kwargs) (st : State DB) :
  as_list_or_tuple (data request) = None ->
  let r := ListEndpoint.post post_attr self request args kwargs st in
  snd r = st /\
  ((is_Some (ListEndpoint.form self) \/ is_Some (ListEndpoint.model self)) ->
     fst r = Raise (UnboundLocalError "entry")) /\
  (ListEndpoint.form self = None -> ListEndpoint.model self = None ->
     fst r = Raise (NotImplementedError "Form or Model class not specified")).
Proof.
  intros Hdata r. subst r. rewrite (post_single_path _ _ _ _ _ _ Hdata).
  repeat split.
  - destruct (_get_form _ _); reflexivity.
  - intros Hcfg. destruct (_get_form_configured _ _ Hcfg) as [F ->]. reflexivity.
  - intros -> ->. reflexivity.
Qed.

(** C3 (as the code behaves): on a non-empty list or tuple payload the
    loop calls [self.post], which is the decorated attribute, [None]; the
    first element therefore raises [TypeError] with nothing created, and an
    empty list gives the empty 201 at once. *)
Theorem post_list_payload_raises_TypeError
    (self : ListEndpoint.t) (request : Request) (entry : Value)
    (entries : list Value) (args : list Value) (kwargs : Kwargs) (st : State DB) :
  let post := ListEndpoint.post ListEndpoint.post_attr self in
  let not_callable := (Raise (TypeError "'NoneType' object is not callable"), st) in
  post (mkRequest (POST request) (VList (entry :: entries)) (FILES request)) args kwargs st
    = not_callable /\
  post (mkRequest (POST request) (VTuple (entry :: entries)) (FILES request)) args kwargs st
    = not_callable /\
  post (mkRequest (POST request) (VList []) (FILES request)) args kwargs st
    = (Return (Http201 (VDict [])), st).
Proof. cbv zeta. repeat split; reflexivity. Qed.

End PostFacts.

(** ** [DetailEndpoint.get_instance] *)

Section GetInstanceFacts.
Context `{Django}.

Lemma get_instance_cases (self : DetailEndpoint.t) (request : Request)
    (args : list Value) (kwargs : Kwargs) (st : State DB) :
  DetailEndpoint.get_instance self request args kwargs st =
  match DetailEndpoint.model self, kwargs !! DetailEndpoint.lookup_field self with
  | Some m, Some v =>
      match objects_get m (DetailEndpoint.lookup_field self) v (db st) with
      | inl instance =>
          (Return instance, mkState (db st) (trace st ++ [EvResolved instance]))
      | inr DoesNotExist => (Raise DetailEndpoint.Resource_Not_Found, st)
      | inr e => (Raise (OrmError e), st)
      end
  | _, _ => (Raise DetailEndpoint.Resource_Not_Found, st)
  end.
Proof.
  unfold DetailEndpoint.get_instance, kwargs_get.
  destruct (DetailEndpoint.model self) as [m|]; [|reflexivity].
  destruct (kwargs !! DetailEndpoint.lookup_field self) as [v|] eqn:Hk.
  - rewrite bool_decide_eq_true_2 by eauto.
    unfold bind, try_except_DoesNotExist, call_objects_get.
    destruct (objects_get m _ v (db st)) as [instance|[]]; reflexivity.
  - rewrite bool_decide_eq_false_2 by (intros [? ?]; discriminate).
    reflexivity.
Qed.

(** A failed resolution leaves the state as it was; a successful one only
    appends its [EvResolved] to the trace. *)
Lemma get_instance_Raise (self : DetailEndpoint.t) request args kwargs
    (st st' : State DB) (e : Exn) :
  DetailEndpoint.get_instance self request args kwargs st = (Raise e, st') -> st' = st.
Proof.
  rewrite get_instance_cases.
  destruct (DetailEndpoint.model self); [|congruence].
  destruct (kwargs !! _); [|congruence].
  destruct (objects_get _ _ _ _) as [?|[]]; congruence.
Qed.

Lemma get_instance_Return (self : DetailEndpoint.t) request args kwargs
    (st st1 : State DB) (instance : Instance) :
  DetailEndpoint.get_instance self request args kwargs st = (Return instance, st1) ->
  st1 = mkState (db st) (trace st ++ [EvResolved instance]) /\
  is_Some (DetailEndpoint.model self).
Proof.
  rewrite get_instance_cases.
  destruct (DetailEndpoint.model self); [|congruence].
  destruct (kwargs !! _); [|congruence].
  destruct (objects_get _ _ _ _) as [?|[]]; try congruence.
  intros [= -> <-]. split; [reflexivity | eauto].
Qed.

(** C4 (amended): [get_instance] raises the 404 error exactly when [model]
    is unset, or [lookup_field] is not among the keyword arguments, or the
    lookup [model.objects.get] raises [DoesNotExist]; when the lookup
    returns an instance, that instance is returned; any other exception
    of the lookup, such as [MultipleObjectsReturned], is passed on as it
    is. *)
Theorem get_instance_outcome (self : DetailEndpoint.t) (request : Request)
    (args : list Value) (kwargs : Kwargs) (st : State DB) :
  let lf := DetailEndpoint.lookup_field self in
  let r := DetailEndpoint.get_instance self request args kwargs st in
  (fst r = Raise (HttpError 404 "Resource Not Found" None) <->
     DetailEndpoint.model self = None \/
     kwargs !! lf = None \/
     exists m v, DetailEndpoint.model self = Some m /\ kwargs !! lf = Some v /\
                 objects_get m lf v (db st) = inr DoesNotExist) /\
  (forall m v instance,
     DetailEndpoint.model self = Some m -> kwargs !! lf = Some v ->
     objects_get m lf v (db st) = inl instance ->
     r = (Return instance, mkState (db st) (trace st ++ [EvResolved instance]))) /\
  (forall m v e,
     DetailEndpoint.model self = Some m -> kwargs !! lf = Some v ->
     objects_get m lf v (db st) = inr e -> e <> DoesNotExist ->
     r = (Raise (OrmError e), st)).
Proof.
  intros lf r. subst lf r. rewrite get_instance_cases. repeat split.
  - destruct (DetailEndpoint.model self) as [m|]; [|auto].
    destruct (kwargs !! _) as [v|]; [|auto].
    destruct (objects_get _ _ _ _) as [?|[]] eqn:Hget; cbn; try discriminate.
    intros _. right. right. eauto.
  - intros [-> | [-> | (m & v & -> & -> & ->)]]; try reflexivity.
    destruct (DetailEndpoint.model self); reflexivity.
  - intros m v instance -> -> ->. reflexivity.
  - intros m v e -> -> -> He. destruct e; congruence.
Qed.

End GetInstanceFacts.

(** ** [DetailEndpoint.patch] *)

Section PatchFacts.
Context `{Django}.

Lemma setattr_items_other (items : list (string * Value)) (instance : Instance)
    (k : string) :
  ~ In k (map fst items) ->
  DetailEndpoint.setattr_items instance items !! k = instance !! k.
Proof.
  unfold DetailEndpoint.setattr_items.
  revert instance. induction items as [|[k' v'] items IH]; intros instance Hk.
  - reflexivity.
  - cbn [fold_left fst snd]. rewrite IH.
    + unfold setattr. apply lookup_insert_ne. intros ->. apply Hk. now left.
    + intros Hin. apply Hk. now right.
Qed.

Lemma setattr_items_assigned (items : list (string * Value)) (instance : Instance)
    (k : string) (v : Value) :
  List.NoDup (map fst items) -> In (k, v) items ->
  DetailEndpoint.setattr_items instance items !! k = Some v.
Proof.
  unfold DetailEndpoint.setattr_items.
  revert instance. induction items as [|[k' v'] items IH]; intros instance Hnd Hin.
  - destruct Hin.
  - cbn [map fst] in Hnd. apply List.NoDup_cons_iff in Hnd as [Hfresh Hnd].
    cbn [fold_left fst snd]. destruct Hin as [[= -> ->] | Hin].
    + change (DetailEndpoint.setattr_items (setattr instance k v) items !! k = Some v).
      rewrite setattr_items_other by exact Hfresh.
      unfold setattr. apply lookup_insert_eq.
    + now apply IH.
Qed.

(** With no data descriptor in the way the loop on the instance is the
    loop on its attribute dictionary. *)
Lemma setattr_loop_plain (items : list (string * Value)) (instance : Instance) :
  (forall k, In k (map fst items) -> descriptor_set k = None) ->
  DetailEndpoint.setattr_loop instance items
  = Return (DetailEndpoint.setattr_items instance items).
Proof.
  unfold DetailEndpoint.setattr_items.
  revert instance. induction items as [|[k v] items IH]; intros instance Hplain.
  - reflexivity.
  - cbn [DetailEndpoint.setattr_loop fold_left fst snd].
    unfold setattr_on_instance. rewrite (Hplain k) by now left.
    apply IH. intros k' Hk'. apply Hplain. now right.
Qed.

Lemma patch_resolved (self : DetailEndpoint.t) (request : Request)
    (args : list Value) (kwargs : Kwargs) (st st1 : State DB)
    (instance updated : Instance) (items : list (string * Value)) :
  DetailEndpoint.get_instance self request args kwargs st = (Return instance, st1) ->
  data request = VDict items ->
  DetailEndpoint.setattr_loop instance items = Return updated ->
  DetailEndpoint.patch self request args kwargs st =
  match updated !! "save" with
  | Some v => (Raise (not_callable v), st1)
  | None =>
      match instance_save updated (db st1) with
      | (Return saved, d) =>
          (Return (Http200 (DetailEndpoint.serialize saved)),
           mkState d (trace st1 ++ [EvMutate]))
      | (Raise e, d) => (Raise e, mkState d (trace st1 ++ [EvMutate]))
      end
  end.
Proof.
  intros Hget Hdata Hloop.
  unfold DetailEndpoint.patch, bind at 1. rewrite Hget, Hdata.
  cbn [dict_items]. unfold bind at 1, lift at 1. unfold bind at 1, lift at 1.
  rewrite Hloop. unfold bind at 1, lookup_and_call_save.
  destruct (updated !! "save") as [v|]; [reflexivity|].
  unfold call_instance_save, bind, log, ret. cbn [db trace].
  destruct (instance_save updated (db st1)) as [[saved|e] d]; reflexivity.
Qed.

(** An assignment that raises ends [patch] before [save] is looked up. *)
Lemma patch_setattr_raises (self : DetailEndpoint.t) (request : Request)
    (args : list Value) (kwargs : Kwargs) (st st1 : State DB)
    (instance : Instance) (items : list (string * Value)) (e : Exn) :
  DetailEndpoint.get_instance self request args kwargs st = (Return instance, st1) ->
  data request = VDict items ->
  DetailEndpoint.setattr_loop instance items = Raise e ->
  DetailEndpoint.patch self request args kwargs st = (Raise e, st1).
Proof.
  intros Hget Hdata Hloop.
  unfold DetailEndpoint.patch, bind at 1. rewrite Hget, Hdata.
  cbn [dict_items]. unfold bind at 1, lift at 1. unfold bind at 1, lift at 1.
  rewrite Hloop. reflexivity.
Qed.

(** [patch] reads only [model] and [lookup_field] of the endpoint: the
    [form] attribute plays no part in it. *)
Lemma patch_ignores_form (self self' : DetailEndpoint.t) (request : Request)
    (args : list Value) (kwargs : Kwargs) (st : State DB) :
  DetailEndpoint.model self' = DetailEndpoint.model self ->
  DetailEndpoint.lookup_field self' = DetailEndpoint.lookup_field self ->
  DetailEndpoint.patch self' request args kwargs st
  = DetailEndpoint.patch self request args kwargs st.
Proof.
  intros Hm Hl. unfold DetailEndpoint.patch, DetailEndpoint.get_instance.
  rewrite Hm, Hl. reflexivity.
Qed.

(** C5 (amended): when the instance resolves and the payload is a JSON
    object whose keys name no data descriptor of the model class, [patch]
    assigns every key/value pair of the payload as an attribute of the
    instance and leaves the other attributes alone, with no form taking
    part: the result is the same whatever the [form] attribute holds.
    It then looks [save] up on that instance. If an attribute [save] is
    there, as after a payload with the key [save], calling it raises
    [TypeError] and nothing is saved. Otherwise [save()] runs: if it
    returns, the answer is a 200 response with the serialization of the
    instance, and if it raises, that exception is passed on. *)
Theorem patch_assigns_payload_and_saves (self : DetailEndpoint.t) (request : Request)
    (args : list Value) (kwargs : Kwargs) (st st1 : State DB)
    (instance : Instance) (items : list (string * Value)) :
  DetailEndpoint.get_instance self request args kwargs st = (Return instance, st1) ->
  data request = VDict items ->
  List.NoDup (map fst items) ->
  (forall k, In k (map fst items) -> descriptor_set k = None) ->
  let updated := DetailEndpoint.setattr_items instance items in
  let resolved := mkState (db st) (trace st ++ [EvResolved instance]) in
  let after d := mkState d (trace st ++ [EvResolved instance; EvMutate]) in
  (forall k v, In (k, v) items -> updated !! k = Some v) /\
  (forall k, ~ In k (map fst items) -> updated !! k = instance !! k) /\
  (forall v, updated !! "save" = Some v ->
     DetailEndpoint.patch self request args kwargs st
     = (Raise (not_callable v), resolved)) /\
  (forall saved d, updated !! "save" = None ->
     instance_save updated (db st) = (Return saved, d) ->
     DetailEndpoint.patch self request args kwargs st
     = (Return (Http200 (DetailEndpoint.serialize saved)), after d)) /\
  (forall e d, updated !! "save" = None ->
     instance_save updated (db st) = (Raise e, d) ->
     DetailEndpoint.patch self request args kwargs st = (Raise e, after d)) /\
  (forall self',
     DetailEndpoint.model self' = DetailEndpoint.model self ->
     DetailEndpoint.lookup_field self' = DetailEndpoint.lookup_field self ->
     DetailEndpoint.patch self' request args kwargs st
     = DetailEndpoint.patch self request args kwargs st).
Proof.
  intros Hget Hdata Hnd Hplain updated resolved after. subst updated resolved after.
  pose proof (patch_resolved _ _ _ _ _ _ _ _ _ Hget Hdata
                (setattr_loop_plain _ _ Hplain)) as Hpatch.
  apply get_instance_Return in Hget as [-> _]. cbn [db trace] in Hpatch.
  split; [intros k v Hin; now apply setattr_items_assigned|].
  split; [intros k Hk; now apply setattr_items_other|].
  split; [intros v Hsave; rewrite Hpatch, Hsave; reflexivity|].
  split; [intros saved d Hsave Hsaved; rewrite Hpatch, Hsave, Hsaved;
          now rewrite <- app_assoc|].
  split; [intros e d Hsave Hsaved; rewrite Hpatch, Hsave, Hsaved;
          now rewrite <- app_assoc|].
  intros self' Hm Hl. now apply patch_ignores_form.
Qed.

End PatchFacts.

(** ** [DetailEndpoint.put] *)

Section PutFacts.
Context `{Django}.

Lemma put_resolved (self : DetailEndpoint.t) (request : Request)
    (args : list Value) (kwargs : Kwargs) (st st1 : State DB)
    (instance : Instance) (F : FormClass DB) :
  _get_form (DetailEndpoint.form self) (DetailEndpoint.model self) = Return F ->
  DetailEndpoint.get_instance self request args kwargs st = (Return instance, st1) ->
  let bound := F (or_None (data request)) (FILES request) (Some instance) in
  DetailEndpoint.put self request args kwargs st =
  if is_valid bound (db st1)
  then (Return (Http200 (DetailEndpoint.serialize (fst (form_save bound (db st1))))),
        mkState (snd (form_save bound (db st1))) (trace st1 ++ [EvValidate; EvMutate]))
  else (Raise (HttpError 400 "Invalid data" (Some (errors bound (db st1)))),
        mkState (db st1) (trace st1 ++ [EvValidate])).
Proof.
  intros HF Hget bound. subst bound.
  unfold DetailEndpoint.put. rewrite HF.
  unfold bind at 1. unfold lift. unfold bind at 1. rewrite Hget.
  unfold bind at 1. unfold call_is_valid, bind at 1, log. cbn [db trace].
  destruct (is_valid _ _).
  - unfold bind, call_form_save, bind, log, ret. cbn [db trace].
    destruct (form_save _ _). cbn [fst snd]. now rewrite <- app_assoc.
  - reflexivity.
Qed.

(** C6 (amended): when the instance resolves, the form class is the one
    [_get_form] yields, and it is called with [request.data or None] (the
    payload, or [None] when the payload is falsy), [request.FILES] and the
    instance that [get_instance] returned. If [is_valid()] holds, the
    form's [save()] runs, the database after [put] is the one [save()]
    left, and the answer is a 200 response with the serialization of the
    object [save()] returned: [put] assigns no field itself, so which
    fields change is for the form's [save()] to decide. Otherwise the 400
    error carrying [form.errors] is raised with the database untouched. *)
Theorem put_validates_then_saves (self : DetailEndpoint.t) (request : Request)
    (args : list Value) (kwargs : Kwargs) (st st1 : State DB) (instance : Instance) :
  DetailEndpoint.get_instance self request args kwargs st = (Return instance, st1) ->
  exists F : FormClass DB,
    _get_form (DetailEndpoint.form self) (DetailEndpoint.model self) = Return F /\
    let bound := F (or_None (data request)) (FILES request) (Some instance) in
    let tr := trace st ++ [EvResolved instance] in
    (is_valid bound (db st) = true ->
       DetailEndpoint.put self request args kwargs st =
       (Return (Http200 (DetailEndpoint.serialize (fst (form_save bound (db st))))),
        mkState (snd (form_save bound (db st))) (tr ++ [EvValidate; EvMutate]))) /\
    (is_valid bound (db st) = false ->
       DetailEndpoint.put self request args kwargs st =
       (Raise (HttpError 400 "Invalid data" (Some (errors bound (db st)))),
        mkState (db st) (tr ++ [EvValidate]))).
Proof.
  intros Hget.
  destruct (get_instance_Return _ _ _ _ _ _ _ Hget) as [Hst1 Hmodel].
  destruct (_get_form_configured (DetailEndpoint.form self) _ (or_intror Hmodel))
    as [F HF].
  exists F. split; [exact HF|]. cbv zeta.
  rewrite (put_resolved _ _ _ _ _ _ _ _ HF Hget). subst st1. cbn [db trace].
  split; intros ->; reflexivity.
Qed.

(** C10 (amended): when the payload of a PUT is falsy, the form is called
    with [None] in place of the payload, together with [request.FILES]
    and the resolved instance, and the outcome is what that form's
    [is_valid()], [save()] and [errors] give: the update is accepted or
    refused by the form. Two requests with falsy payloads and the same
    files, an empty object and an absent payload among them, are
    therefore processed identically. *)
Theorem put_falsy_payload_bound_to_None (self : DetailEndpoint.t)
    (request request' : Request) (args : list Value) (kwargs : Kwargs)
    (st : State DB) :
  truthy (data request) = false ->
  truthy (data request') = false ->
  FILES request' = FILES request ->
  DetailEndpoint.put self request args kwargs st
    = DetailEndpoint.put self request' args kwargs st /\
  (forall instance st1,
     DetailEndpoint.get_instance self request args kwargs st = (Return instance, st1) ->
     exists F : FormClass DB,
       _get_form (DetailEndpoint.form self) (DetailEndpoint.model self) = Return F /\
       let bound := F VNone (FILES request) (Some instance) in
       let tr := trace st ++ [EvResolved instance] in
       DetailEndpoint.put self request args kwargs st =
       if is_valid bound (db st)
       then (Return (Http200 (DetailEndpoint.serialize (fst (form_save bound (db st))))),
             mkState (snd (form_save bound (db st))) (tr ++ [EvValidate; EvMutate]))
       else (Raise (HttpError 400 "Invalid data" (Some (errors bound (db st)))),
             mkState (db st) (tr ++ [EvValidate]))).
Proof.
  intros Hd Hd' Hf. split.
  - unfold DetailEndpoint.put, or_None. rewrite Hd, Hd', Hf. reflexivity.
  - intros instance st1 Hget.
    destruct (get_instance_Return _ _ _ _ _ _ _ Hget) as [Hst1 Hmodel].
    destruct (_get_form_configured (DetailEndpoint.form self) _ (or_intror Hmodel))
      as [F HF].
    exists F. split; [exact HF|]. cbv zeta.
    rewrite (put_resolved _ _ _ _ _ _ _ _ HF Hget). subst st1. cbn [db trace].
    unfold or_None. rewrite Hd. reflexivity.
Qed.

End PutFacts.

(** ** Resolution comes first *)

Section OrderFacts.
Context `{Django}.

Lemma post_state_unchanged (self : ListEndpoint.t) (request : Request)
    (args : list Value) (kwargs : Kwargs) (st : State DB) :
  snd (ListEndpoint.post ListEndpoint.post_attr self request args kwargs st) = st.
Proof.
  destruct (as_list_or_tuple (data request)) as [entries|] eqn:Hdata.
  - unfold ListEndpoint.post. rewrite Hdata. destruct entries; reflexivity.
  - rewrite (post_single_path _ _ _ _ _ _ Hdata).
    destruct (_get_form _ _); reflexivity.
Qed.

Lemma patch_unresolved (self : DetailEndpoint.t) request args kwargs
    (st st' : State DB) (e : Exn) :
  DetailEndpoint.get_instance self request args kwargs st = (Raise e, st') ->
  DetailEndpoint.patch self request args kwargs st = (Raise e, st').
Proof. intros Hget. unfold DetailEndpoint.patch, bind at 1. now rewrite Hget. Qed.

Lemma patch_not_a_dict (self : DetailEndpoint.t) request args kwargs
    (st st1 : State DB) (instance : Instance) :
  DetailEndpoint.get_instance self request args kwargs st = (Return instance, st1) ->
  (forall items, data request <> VDict items) ->
  DetailEndpoint.patch self request args kwargs st
  = (Raise (AttributeError "items"), st1).
Proof.
  intros Hget Hdata. unfold DetailEndpoint.patch, bind at 1. rewrite Hget.
  destruct (data request); try reflexivity. now destruct (Hdata items).
Qed.

Lemma delete_unresolved (self : DetailEndpoint.t) request args kwargs
    (st st' : State DB) (e : Exn) :
  DetailEndpoint.get_instance self request args kwargs st = (Raise e, st') ->
  DetailEndpoint.delete self request args kwargs st = (Raise e, st').
Proof. intros Hget. unfold DetailEndpoint.delete, bind at 1. now rewrite Hget. Qed.

Lemma delete_resolved (self : DetailEndpoint.t) request args kwargs
    (st st1 : State DB) (instance : Instance) :
  DetailEndpoint.get_instance self request args kwargs st = (Return instance, st1) ->
  DetailEndpoint.delete self request args kwargs st =
  (Return (PyData (VDict [])),
   mkState (instance_delete instance (db st1)) (trace st1 ++ [EvMutate])).
Proof. intros Hget. unfold DetailEndpoint.delete, bind at 1. now rewrite Hget. Qed.

Lemma put_unresolved (self : DetailEndpoint.t) request args kwargs
    (st st' : State DB) (e : Exn) :
  DetailEndpoint.get_instance self request args kwargs st = (Raise e, st') ->
  exists e', DetailEndpoint.put self request args kwargs st = (Raise e', st).
Proof.
  intros Hget. pose proof (get_instance_Raise _ _ _ _ _ _ _ Hget) as ->.
  unfold DetailEndpoint.put, bind at 1, lift.
  destruct (_get_form _ _) as [F|e0].
  - exists e. unfold bind at 1. now rewrite Hget.
  - exists e0. reflexivity.
Qed.

Lemma resolves_first_post (self : ListEndpoint.t) request args kwargs :
  resolves_first (ListEndpoint.post ListEndpoint.post_attr self request args kwargs).
Proof.
  intros st. exists []. rewrite post_state_unchanged, app_nil_r. auto.
Qed.

Lemma resolves_first_patch (self : DetailEndpoint.t) request args kwargs :
  resolves_first (DetailEndpoint.patch self request args kwargs).
Proof.
  intros st.
  destruct (DetailEndpoint.get_instance self request args kwargs st)
    as [[instance|e] st1] eqn:Hget.
  - pose proof (get_instance_Return _ _ _ _ _ _ _ Hget) as [Hst1 _].
    destruct (data request) eqn:Hdata;
      try solve [exists [EvResolved instance];
                 rewrite (patch_not_a_dict _ _ _ _ _ _ _ Hget)
                   by (rewrite Hdata; discriminate);
                 subst st1; cbn; auto].
    destruct (DetailEndpoint.setattr_loop instance items) as [updated|e] eqn:Hloop.
    + rewrite (patch_resolved _ _ _ _ _ _ _ _ _ Hget Hdata Hloop). subst st1.
      cbn [db trace]. destruct (updated !! "save") as [v|].
      * exists [EvResolved instance]. cbn. auto.
      * exists [EvResolved instance; EvMutate].
        destruct (instance_save updated (db st)) as [[saved|e] d]; cbn;
          rewrite <- app_assoc; repeat split; discriminate.
    + exists [EvResolved instance].
      rewrite (patch_setattr_raises _ _ _ _ _ _ _ _ _ Hget Hdata Hloop).
      subst st1. cbn. auto.
  - pose proof (get_instance_Raise _ _ _ _ _ _ _ Hget) as ->.
    exists []. rewrite (patch_unresolved _ _ _ _ _ _ _ Hget), app_nil_r. auto.
Qed.

Lemma resolves_first_delete (self : DetailEndpoint.t) request args kwargs :
  resolves_first (DetailEndpoint.delete self request args kwargs).
Proof.
  intros st.
  destruct (DetailEndpoint.get_instance self request args kwargs st)
    as [[instance|e] st1] eqn:Hget.
  - pose proof (get_instance_Return _ _ _ _ _ _ _ Hget) as [Hst1 _].
    exists [EvResolved instance; EvMutate].
    rewrite (delete_resolved _ _ _ _ _ _ _ Hget). subst st1. cbn.
    rewrite <- app_assoc. repeat split. discriminate.
  - pose proof (get_instance_Raise _ _ _ _ _ _ _ Hget) as ->.
    exists []. rewrite (delete_unresolved _ _ _ _ _ _ _ Hget), app_nil_r. auto.
Qed.

Lemma resolves_first_put (self : DetailEndpoint.t) request args kwargs :
  resolves_first (DetailEndpoint.put self request args kwargs).
Proof.
  intros st.
  destruct (DetailEndpoint.get_instance self request args kwargs st)
    as [[instance|e] st1] eqn:Hget.
  - pose proof (get_instance_Return _ _ _ _ _ _ _ Hget) as [Hst1 Hmodel].
    destruct (_get_form_configured (DetailEndpoint.form self) _ (or_intror Hmodel))
      as [F HF].
    rewrite (put_resolved _ _ _ _ _ _ _ _ HF Hget). subst st1. cbn [db trace].
    destruct (is_valid _ _).
    + exists [EvResolved instance; EvValidate; EvMutate]. cbn.
      rewrite <- app_assoc. repeat split. discriminate.
    + exists [EvResolved instance; EvValidate]. cbn.
      rewrite <- app_assoc. auto.
  - destruct (put_unresolved _ _ _ _ _ _ _ Hget) as [e' ->].
    exists []. cbn. rewrite app_nil_r. auto.
Qed.

Lemma put_unresolved_configured (self : DetailEndpoint.t) request args kwargs
    (st st' : State DB) (e : Exn) :
  DetailEndpoint.get_instance self request args kwargs st = (Raise e, st') ->
  is_Some (DetailEndpoint.form self) \/ is_Some (DetailEndpoint.model self) ->
  DetailEndpoint.put self request args kwargs st = (Raise e, st).
Proof.
  intros Hget Hcfg. pose proof (get_instance_Raise _ _ _ _ _ _ _ Hget) as ->.
  destruct (_get_form_configured _ _ Hcfg) as [F HF].
  unfold DetailEndpoint.put. rewrite HF. unfold bind at 1, lift, bind at 1.
  now rewrite Hget.
Qed.

Lemma never_resolves_post_loop (self_post : Request -> M DB Ret) (request : Request)
    (entries : list Value) :
  (forall request', never_resolves (self_post request')) ->
  never_resolves (ListEndpoint.post_loop self_post request entries).
Proof.
  intros Hcall. induction entries as [|entry entries IH]; intros st.
  - exists []. cbn. rewrite app_nil_r. auto.
  - cbn [ListEndpoint.post_loop]. unfold bind.
    destruct (Hcall (copy_with_entry request entry) st) as (t1 & Ht1 & Hno1).
    destruct (self_post (copy_with_entry request entry) st) as [[r|e] st1];
      cbn [snd] in Ht1; [|exists t1; auto].
    destruct (is_Http201_or_Http200 r); cbn [negb]; [|exists t1; auto].
    destruct (IH st1) as (t2 & Ht2 & Hno2).
    exists (t1 ++ t2). rewrite Ht2, Ht1, <- app_assoc. split; [reflexivity|].
    intros instance Hin. apply in_app_or in Hin as [Hin|Hin].
    + exact (Hno1 _ Hin).
    + exact (Hno2 _ Hin).
Qed.

(** C7 (amended): in every run of [put], [patch] and [delete] each
    validation and each mutation recorded in the trace comes after a
    resolved instance, and the database changes only through a recorded
    mutation. When [get_instance] fails, with the 404 error or what the
    lookup raised, [patch] and [delete] fail with that same exception in
    the unchanged state, and so does [put] if [form] or [model] is set;
    with neither set [put] has already raised [NotImplementedError],
    since it resolves the form first. [post] resolves no instance: it
    adds no resolution to those of the function [self.post] is bound
    to, if any. *)
Theorem detail_handlers_resolve_first
    (ls : ListEndpoint.t) (ds : DetailEndpoint.t)
    (request : Request) (args : list Value) (kwargs : Kwargs) :
  resolves_first (DetailEndpoint.put ds request args kwargs) /\
  resolves_first (DetailEndpoint.patch ds request args kwargs) /\
  resolves_first (DetailEndpoint.delete ds request args kwargs) /\
  (forall (st st' : State DB) (e : Exn),
     DetailEndpoint.get_instance ds request args kwargs st = (Raise e, st') ->
     DetailEndpoint.patch ds request args kwargs st = (Raise e, st) /\
     DetailEndpoint.delete ds request args kwargs st = (Raise e, st) /\
     (is_Some (DetailEndpoint.form ds) \/ is_Some (DetailEndpoint.model ds) ->
        DetailEndpoint.put ds request args kwargs st = (Raise e, st)) /\
     (DetailEndpoint.form ds = None -> DetailEndpoint.model ds = None ->
        DetailEndpoint.put ds request args kwargs st
        = (Raise (NotImplementedError "Form or Model class not specified"), st))) /\
  (forall post_attr : Attribute ListEndpoint.t,
     (forall f request', post_attr = Some f ->
        never_resolves (f ls request' args kwargs)) ->
     never_resolves (ListEndpoint.post post_attr ls request args kwargs)).
Proof.
  split; [apply resolves_first_put|].
  split; [apply resolves_first_patch|].
  split; [apply resolves_first_delete|].
  split.
  - intros st st' e Hget.
    pose proof (get_instance_Raise _ _ _ _ _ _ _ Hget) as Hst. subst st'.
    split; [now apply patch_unresolved|].
    split; [now apply delete_unresolved|].
    split; [now apply (put_unresolved_configured _ _ _ _ _ _ _ Hget)|].
    intros Hf Hm. unfold DetailEndpoint.put. rewrite Hf, Hm. reflexivity.
  - intros post_attr Hattr.
    destruct (as_list_or_tuple (data request)) as [entries|] eqn:Hdata.
    + unfold ListEndpoint.post. rewrite Hdata.
      apply never_resolves_post_loop. intros request'.
      destruct post_attr as [f|]; [now apply Hattr|].
      intros st. exists []. cbn. rewrite app_nil_r. auto.
    + intros st. exists []. rewrite (post_single_path _ _ _ _ _ _ Hdata).
      destruct (_get_form _ _); cbn; rewrite app_nil_r; auto.
Qed.

End OrderFacts.

(** ** Reading handlers and form resolution, in full *)

Section ReadFacts.
Context `{Django}.

Lemma version_ge_1_8 (v : Z * Z) :
  version_ge v (1, 8) = true <-> 1 < fst v \/ (fst v = 1 /\ 8 <= snd v).
Proof.
  unfold version_ge. cbn [fst snd].
  rewrite orb_true_iff, andb_true_iff, Z.ltb_lt, Z.eqb_eq, Z.leb_le. tauto.
Qed.

(** X1: [_get_form] raises exactly when neither [form] nor [model] is
    set. An explicit form is returned as it is, whatever the model and
    the Django version. A derived form comes from [modelform_factory],
    called with [fields='__all__'] from Django 1.8 on (major above 1, or
    major 1 and minor at least 8) and without [fields] before. *)
Theorem _get_form_resolution (form : option (FormClass DB))
    (model : option (ModelClass DB)) :
  ((exists e, _get_form form model = Raise e) <-> form = None /\ model = None) /\
  (forall f, form = Some f -> _get_form form model = Return f) /\
  (forall m, form = None -> model = Some m ->
     (1 < fst VERSION \/ (fst VERSION = 1 /\ 8 <= snd VERSION) ->
        _get_form form model = Return (modelform_factory m (Some "__all__"))) /\
     (~ (1 < fst VERSION \/ (fst VERSION = 1 /\ 8 <= snd VERSION)) ->
        _get_form form model = Return (modelform_factory m None))).
Proof.
  split; [|split].
  - split.
    + intros [e He]. destruct form as [f|]; [discriminate|].
      destruct model as [m|]; [|auto].
      rewrite _get_form_derived in He. discriminate.
    + intros [-> ->]. eexists. apply _get_form_unconfigured.
  - intros f ->. reflexivity.
  - intros m -> ->. rewrite _get_form_derived.
    destruct (version_ge VERSION (1, 8)) eqn:Hv; split; intros Hver; try reflexivity.
    + exfalso. apply Hver. now apply version_ge_1_8.
    + apply version_ge_1_8 in Hver. congruence.
Qed.

(** X2: [ListEndpoint.get] reads and never writes: the state after it is
    the state before it. It raises the 404 error exactly when [model] is
    unset, and otherwise returns the serialization of [model.objects.all()]
    as plain data, whatever the request, the URL arguments, [form] and
    [methods] are. *)
Theorem list_get_outcome (self : ListEndpoint.t) (request : Request)
    (args : list Value) (kwargs : Kwargs) (st : State DB) :
  let r := ListEndpoint.get self request args kwargs st in
  snd r = st /\
  (fst r = Raise (HttpError 404 "Resource Not Found" None)
     <-> ListEndpoint.model self = None) /\
  (forall m, ListEndpoint.model self = Some m ->
     fst r = Return (PyData (models_serialize (QuerySet (objects_all m (db st)))))).
Proof.
  cbv zeta. unfold ListEndpoint.get, ListEndpoint.get_query_set, bind.
  destruct (ListEndpoint.model self) as [m|]; cbn.
  - repeat split; try discriminate. intros m' [= <-]. reflexivity.
  - repeat split; discriminate.
Qed.

(** X3: [get_instance] looks at nothing but [model], [lookup_field], the
    keyword argument named by [lookup_field] and the database: the
    request, the positional arguments and every other keyword argument
    are ignored. *)
Theorem get_instance_reads_only_lookup (self self' : DetailEndpoint.t)
    (request request' : Request) (args args' : list Value)
    (kwargs kwargs' : Kwargs) (st : State DB) :
  DetailEndpoint.model self' = DetailEndpoint.model self ->
  DetailEndpoint.lookup_field self' = DetailEndpoint.lookup_field self ->
  kwargs' !! DetailEndpoint.lookup_field self = kwargs !! DetailEndpoint.lookup_field self ->
  DetailEndpoint.get_instance self' request' args' kwargs' st
  = DetailEndpoint.get_instance self request args kwargs st.
Proof.
  intros Hm Hl Hk. rewrite !get_instance_cases, Hm, Hl, Hk. reflexivity.
Qed.

(** X4: [get_instance] never writes to the database, and a failed call
    leaves the whole state as it was. What it raises is the 404 error or
    an exception of the lookup other than [DoesNotExist]: [DoesNotExist]
    itself never escapes. *)
Theorem get_instance_read_only (self : DetailEndpoint.t) (request : Request)
    (args : list Value) (kwargs : Kwargs) (st : State DB) :
  let r := DetailEndpoint.get_instance self request args kwargs st in
  db (snd r) = db st /\
  (forall e, fst r = Raise e ->
     snd r = st /\
     (e = HttpError 404 "Resource Not Found" None \/
      exists o, e = OrmError o /\ o <> DoesNotExist)).
Proof.
  cbv zeta. rewrite get_instance_cases.
  destruct (DetailEndpoint.model self) as [m|];
    [|split; [reflexivity | intros e [= <-]; auto]].
  destruct (kwargs !! _) as [v|];
    [|split; [reflexivity | intros e [= <-]; auto]].
  destruct (objects_get _ _ _ _) as [instance|[]]; cbn;
    (split; [reflexivity | intros e He; try discriminate He; injection He as <-]).
  - auto.
  - split; [reflexivity|]. right. eexists. split; [reflexivity | discriminate].
  - split; [reflexivity|]. right. eexists. split; [reflexivity | discriminate].
Qed.

(** X5: [DetailEndpoint.get] never writes to the database. When the
    lookup returns an instance it returns the serialization of that
    instance as plain data, and it returns at all only if [model] is set
    and [lookup_field] is among the keyword arguments. *)
Theorem detail_get_outcome (self : DetailEndpoint.t) (request : Request)
    (args : list Value) (kwargs : Kwargs) (st : State DB) :
  let lf := DetailEndpoint.lookup_field self in
  let r := DetailEndpoint.get self request args kwargs st in
  db (snd r) = db st /\
  (forall m v instance,
     DetailEndpoint.model self = Some m -> kwargs !! lf = Some v ->
     objects_get m lf v (db st) = inl instance ->
     fst r = Return (PyData (models_serialize (OneObj instance)))) /\
  (forall ret, fst r = Return ret ->
     exists m v instance,
       DetailEndpoint.model self = Some m /\ kwargs !! lf = Some v /\
       objects_get m lf v (db st) = inl instance /\
       ret = PyData (models_serialize (OneObj instance))).
Proof.
  cbv zeta. unfold DetailEndpoint.get, bind. rewrite get_instance_cases.
  destruct (DetailEndpoint.model self) as [m|];
    [|split; [reflexivity|split; [intros; discriminate | intros ret Hr; discriminate Hr]]].
  destruct (kwargs !! _) as [v|];
    [|split; [reflexivity|split; [intros; discriminate | intros ret Hr; discriminate Hr]]].
  destruct (objects_get m _ v (db st)) as [instance|o] eqn:Hget.
  - split; [reflexivity|]. split.
    + intros m' v' instance' [= <-] [= <-] Hget'. rewrite Hget in Hget'.
      injection Hget' as <-. reflexivity.
    + intros ret [= <-]. exists m, v, instance. auto.
  - destruct o; (split; [reflexivity|]); (split;
      [ intros m' v' instance' [= <-] [= <-] Hget'; rewrite Hget in Hget';
        discriminate Hget'
      | intros ret Hr; discriminate Hr ]).
Qed.

End ReadFacts.

(** ** Unresolvable requests, and when [put] binds the payload *)

Section FailureFacts.
Context `{Django}.

(** X6: when [model] is unset or [lookup_field] is not among the keyword
    arguments, [get], [patch] and [delete] raise the 404 error and leave
    the state as it was. [put] does the same if [form] or [model] is set;
    with neither set it raises [NotImplementedError] instead, because it
    resolves the form before the instance. *)
Theorem unresolvable_requests_fail (self : DetailEndpoint.t) (request : Request)
    (args : list Value) (kwargs : Kwargs) (st : State DB) :
  DetailEndpoint.model self = None \/
  kwargs !! DetailEndpoint.lookup_field self = None ->
  let not_found := (Raise (HttpError 404 "Resource Not Found" None), st) in
  DetailEndpoint.get self request args kwargs st = not_found /\
  DetailEndpoint.patch self request args kwargs st = not_found /\
  DetailEndpoint.delete self request args kwargs st = not_found /\
  (is_Some (DetailEndpoint.form self) \/ is_Some (DetailEndpoint.model self) ->
     DetailEndpoint.put self request args kwargs st = not_found) /\
  (DetailEndpoint.form self = None -> DetailEndpoint.model self = None ->
     DetailEndpoint.put self request args kwargs st
     = (Raise (NotImplementedError "Form or Model class not specified"), st)).
Proof.
  intros Hun. cbv zeta.
  assert (Hget : DetailEndpoint.get_instance self request args kwargs st
                 = (Raise (HttpError 404 "Resource Not Found" None), st)).
  { rewrite get_instance_cases. destruct Hun as [-> | ->]; [reflexivity|].
    destruct (DetailEndpoint.model self); reflexivity. }
  split; [unfold DetailEndpoint.get, bind; now rewrite Hget|].
  split; [now apply patch_unresolved|].
  split; [now apply delete_unresolved|].
  split.
  - intros Hcfg. destruct (_get_form_configured _ _ Hcfg) as [F HF].
    unfold DetailEndpoint.put. rewrite HF. unfold bind at 1, lift, bind at 1.
    now rewrite Hget.
  - intros Hf Hm. unfold DetailEndpoint.put. rewrite Hf, Hm. reflexivity.
Qed.

(** X7: on a truthy payload [put] binds the form to the payload itself:
    it is the full update that binds [request.data], [request.FILES] and
    the instance. *)
Theorem put_binds_truthy_payload (self : DetailEndpoint.t) (request : Request)
    (args : list Value) (kwargs : Kwargs) (st : State DB) :
  truthy (data request) = true ->
  DetailEndpoint.put self request args kwargs st
  = put_as_specified self request args kwargs st.
Proof.
  intros Ht. unfold DetailEndpoint.put, put_as_specified, or_None.
  rewrite Ht. reflexivity.
Qed.

(** X8: [patch] on a payload that is not a JSON object (a list, a string,
    a number, no payload at all) resolves the instance and then raises
    [AttributeError] at [request.data.items()]: nothing is assigned and
    nothing is saved. *)
Theorem patch_payload_not_an_object (self : DetailEndpoint.t) (request : Request)
    (args : list Value) (kwargs : Kwargs) (st st1 : State DB) (instance : Instance) :
  DetailEndpoint.get_instance self request args kwargs st = (Return instance, st1) ->
  (forall items, data request <> VDict items) ->
  DetailEndpoint.patch self request args kwargs st
  = (Raise (AttributeError "items"),
     mkState (db st) (trace st ++ [EvResolved instance])).
Proof.
  intros Hget Hdata. rewrite (patch_not_a_dict _ _ _ _ _ _ _ Hget Hdata).
  now apply get_instance_Return in Hget as [-> _].
Qed.

End FailureFacts.

(** ** Attribute assignment, batches, and handlers in sequence *)

Section CompositionFacts.
Context `{Django}.



Lemma post_loop_FILES (self_post : Request -> M DB Ret) (request request' : Request)
    (entries : list Value) :
  FILES request' = FILES request ->
  ListEndpoint.post_loop self_post request' entries
  = ListEndpoint.post_loop self_post request entries.
Proof.
  intros Hf. induction entries as [|entry entries IH]; [reflexivity|].
  cbn [ListEndpoint.post_loop]. unfold copy_with_entry. now rewrite Hf, IH.
Qed.

Lemma post_loop_app (self_post : Request -> M DB Ret) (request : Request)
    (pre rest : list Value) (st : State DB) :
  ListEndpoint.post_loop self_post request (pre ++ rest) st =
  match ListEndpoint.post_loop self_post request pre st with
  | (Return r, st') =>
      if is_Http201_or_Http200 r
      then ListEndpoint.post_loop self_post request rest st'
      else (Return r, st')
  | (Raise e, st') => (Raise e, st')
  end.
Proof.
  revert st. induction pre as [|entry pre IH]; intros st; [reflexivity|].
  cbn [app ListEndpoint.post_loop]. unfold bind.
  destruct (self_post (copy_with_entry request entry) st) as [[r|e] st1];
    [|reflexivity].
  destruct (is_Http201_or_Http200 r) eqn:Hr; cbn [negb].
  - apply IH.
  - unfold ret. now rewrite Hr.
Qed.

(** X10: a batch POST composes. Posting the list [pre ++ rest] is posting
    [pre] and, if that answered with a 200 or 201, posting [rest] from
    the state it left; if posting [pre] raised or returned something
    else, that is the outcome, in the state reached, and no entry of
    [rest] is processed. This holds whatever [self.post] is bound to. *)
Theorem post_list_append (post_attr : Attribute ListEndpoint.t) (self : ListEndpoint.t)
    (post_data files : Value) (pre rest : list Value)
    (args : list Value) (kwargs : Kwargs) (st : State DB) :
  let post payload :=
    ListEndpoint.post post_attr self (mkRequest post_data (VList payload) files)
      args kwargs in
  post (pre ++ rest) st =
  match post pre st with
  | (Return r, st') => if is_Http201_or_Http200 r then post rest st' else (Return r, st')
  | (Raise e, st') => (Raise e, st')
  end.
Proof.
  cbv zeta. unfold ListEndpoint.post. cbn [data as_list_or_tuple].
  rewrite post_loop_app.
  rewrite (post_loop_FILES _ (mkRequest post_data (VList (pre ++ rest)) files)
             (mkRequest post_data (VList pre) files) pre eq_refl).
  rewrite (post_loop_FILES _ (mkRequest post_data (VList (pre ++ rest)) files)
             (mkRequest post_data (VList rest) files) rest eq_refl).
  reflexivity.
Qed.

(** X11: if [self.post] is bound to a function that answers every entry
    with a 200 or 201, a batch POST returns a 201 whose body is the empty
    object: what the single calls returned is not in the answer. *)
Theorem post_list_all_created (f : ListEndpoint.t -> Request -> list Value -> Kwargs -> M DB Ret)
    (self : ListEndpoint.t) (request : Request) (entries : list Value)
    (args : list Value) (kwargs : Kwargs) (st : State DB) :
  as_list_or_tuple (data request) = Some entries ->
  (forall entry st0, exists r st1,
      f self (copy_with_entry request entry) args kwargs st0 = (Return r, st1) /\
      is_Http201_or_Http200 r = true) ->
  exists st', ListEndpoint.post (Some f) self request args kwargs st
              = (Return (Http201 (VDict [])), st').
Proof.
  intros Hdata Hok. unfold ListEndpoint.post. rewrite Hdata.
  apply post_loop_all_succeed. exact Hok.
Qed.

(** X12: DELETE and then GET. When the instance resolves, [delete] calls
    its [delete()] once and returns the empty object as plain data; if
    the lookup no longer finds the row in the database [delete()] left,
    a [get] with the same keyword arguments then raises the 404 error. *)
Theorem delete_then_get_not_found (self : DetailEndpoint.t)
    (request request' : Request) (args args' : list Value) (kwargs : Kwargs)
    (st : State DB) (m : ModelClass DB) (v : Value) (instance : Instance) :
  DetailEndpoint.model self = Some m ->
  kwargs !! DetailEndpoint.lookup_field self = Some v ->
  objects_get m (DetailEndpoint.lookup_field self) v (db st) = inl instance ->
  objects_get m (DetailEndpoint.lookup_field self) v (instance_delete instance (db st))
    = inr DoesNotExist ->
  let after := mkState (instance_delete instance (db st))
                       (trace st ++ [EvResolved instance; EvMutate]) in
  DetailEndpoint.delete self request args kwargs st
    = (Return (PyData (VDict [])), after) /\
  DetailEndpoint.get self request' args' kwargs after
    = (Raise (HttpError 404 "Resource Not Found" None), after).
Proof.
  intros Hm Hk Hfound Hgone. cbv zeta.
  assert (Hget : DetailEndpoint.get_instance self request args kwargs st
                 = (Return instance,
                    mkState (db st) (trace st ++ [EvResolved instance]))).
  { rewrite get_instance_cases, Hm, Hk, Hfound. reflexivity. }
  split.
  - rewrite (delete_resolved _ _ _ _ _ _ _ Hget). cbn [db trace].
    now rewrite <- app_assoc.
  - unfold DetailEndpoint.get, bind. rewrite get_instance_cases, Hm, Hk.
    cbn [db]. rewrite Hgone. reflexivity.
Qed.

(** X13: PATCH and then GET. Let the payload be a JSON object whose keys
    name no data descriptor of the class and leave no attribute [save] on
    the instance, and let [save()] return. If the lookup finds the saved
    object in the database [save()] left, a [get] with the same keyword
    arguments returns, as plain data, the very body that [patch] answered
    with. *)
Theorem patch_then_get_same_body (self : DetailEndpoint.t)
    (request request' : Request) (args args' : list Value) (kwargs : Kwargs)
    (st : State DB) (m : ModelClass DB) (v : Value) (instance saved : Instance)
    (items : list (string * Value)) (d : DB) :
  DetailEndpoint.model self = Some m ->
  kwargs !! DetailEndpoint.lookup_field self = Some v ->
  objects_get m (DetailEndpoint.lookup_field self) v (db st) = inl instance ->
  data request = VDict items ->
  (forall k, In k (map fst items) -> descriptor_set k = None) ->
  DetailEndpoint.setattr_items instance items !! "save" = None ->
  instance_save (DetailEndpoint.setattr_items instance items) (db st) = (Return saved, d) ->
  objects_get m (DetailEndpoint.lookup_field self) v d = inl saved ->
  exists body after,
    DetailEndpoint.patch self request args kwargs st = (Return (Http200 body), after) /\
    fst (DetailEndpoint.get self request' args' kwargs after) = Return (PyData body).
Proof.
  intros Hm Hk Hfound Hdata Hplain Hsave Hsaved Hlookup.
  assert (Hget : DetailEndpoint.get_instance self request args kwargs st
                 = (Return instance,
                    mkState (db st) (trace st ++ [EvResolved instance]))).
  { rewrite get_instance_cases, Hm, Hk, Hfound. reflexivity. }
  eexists _, _. split.
  - rewrite (patch_resolved _ _ _ _ _ _ _ _ _ Hget Hdata
               (setattr_loop_plain _ _ Hplain)).
    rewrite Hsave. cbn [db trace]. rewrite Hsaved. reflexivity.
  - unfold DetailEndpoint.get, bind. rewrite get_instance_cases, Hm, Hk.
    cbn [db]. rewrite Hlookup. reflexivity.
Qed.

(** X14: PUT and then GET. If the form is valid and the lookup finds, in
    the database the form's [save()] left, the object [save()] returned,
    a [get] with the same keyword arguments returns, as plain data, the
    very body that [put] answered with. *)
Theorem put_then_get_same_body (self : DetailEndpoint.t)
    (request request' : Request) (args args' : list Value) (kwargs : Kwargs)
    (st : State DB) (m : ModelClass DB) (v : Value) (instance : Instance)
    (F : FormClass DB) :
  DetailEndpoint.model self = Some m ->
  kwargs !! DetailEndpoint.lookup_field self = Some v ->
  objects_get m (DetailEndpoint.lookup_field self) v (db st) = inl instance ->
  _get_form (DetailEndpoint.form self) (DetailEndpoint.model self) = Return F ->
  let bound := F (or_None (data request)) (FILES request) (Some instance) in
  is_valid bound (db st) = true ->
  objects_get m (DetailEndpoint.lookup_field self) v (snd (form_save bound (db st)))
    = inl (fst (form_save bound (db st))) ->
  exists body after,
    DetailEndpoint.put self request args kwargs st = (Return (Http200 body), after) /\
    fst (DetailEndpoint.get self request' args' kwargs after) = Return (PyData body).
Proof.
  intros Hm Hk Hfound HF bound Hvalid Hsaved. subst bound.
  assert (Hget : DetailEndpoint.get_instance self request args kwargs st
                 = (Return instance,
                    mkState (db st) (trace st ++ [EvResolved instance]))).
  { rewrite get_instance_cases, Hm, Hk, Hfound. reflexivity. }
  eexists _, _. split.
  - rewrite (put_resolved _ _ _ _ _ _ _ _ HF Hget). cbn [db trace].
    rewrite Hvalid. reflexivity.
  - unfold DetailEndpoint.get, bind. rewrite get_instance_cases, Hm, Hk.
    cbn [db]. rewrite Hsaved. reflexivity.
Qed.

End CompositionFacts.

(** ** The handlers run on the example installation *)

Import Example.

(** C2 (as the code behaves): a POST of a single object that the form
    accepts does not create it. The form class is resolved, then reading
    the unbound local [entry] raises [UnboundLocalError]; the form is
    never called and the table keeps its rows. *)
Theorem post_valid_object_raises_UnboundLocalError :
  is_valid (PersonForm ["name"] ["name"] carol (VDict []) None) [alice] = true /\
  ListEndpoint.post ListEndpoint.post_attr people_list (json carol) [] ∅ (start [alice])
  = (Raise (UnboundLocalError "entry"), start [alice]).
Proof. split; reflexivity. Qed.

(** The unconfigured endpoints of the class bodies, run on one request. *)
Lemma unconfigured_form_witness :
  ListEndpoint.form ListEndpoint.defaults = None /\
  ListEndpoint.model ListEndpoint.defaults = None /\
  DetailEndpoint.form DetailEndpoint.defaults = None /\
  DetailEndpoint.model DetailEndpoint.defaults = None /\
  as_list_or_tuple (data (json carol)) = None /\
  is_HttpError not_specified = false /\
  ListEndpoint.post ListEndpoint.post_attr ListEndpoint.defaults (json carol) [] pk3
    (start [alice]) = (Raise not_specified, start [alice]) /\
  DetailEndpoint.put DetailEndpoint.defaults (json carol) [] pk3 (start [alice])
  = (Raise not_specified, start [alice]).
Proof.
  pose proof (unconfigured_form_raises_NotImplementedError
                ListEndpoint.post_attr ListEndpoint.defaults DetailEndpoint.defaults
                (json carol) [] pk3 (start [alice])
                eq_refl eq_refl eq_refl eq_refl) as (_ & Hhttp & Hpost & Hput).
  do 5 (split; [reflexivity|]).
  split; [exact Hhttp|]. split; [exact (Hpost eq_refl) | exact Hput].
Defined.

(** A configured list endpoint and an object its form would accept. *)
Lemma post_single_object_witness :
  as_list_or_tuple (data (json carol)) = None /\
  is_Some (ListEndpoint.form people_list) /\
  ListEndpoint.post ListEndpoint.post_attr people_list (json carol) [] ∅ (start [alice])
  = (Raise (UnboundLocalError "entry"), start [alice]).
Proof.
  pose proof (post_single_object_always_raises
                ListEndpoint.post_attr people_list (json carol) [] ∅ (start [alice])
                eq_refl) as (Hst & Hset & _).
  assert (Hform : is_Some (ListEndpoint.form people_list)) by (eexists; reflexivity).
  split; [reflexivity|]. split; [exact Hform|].
  apply injective_projections; [exact (Hset (or_introl Hform)) | exact Hst].
Defined.

(** C9, refuted as stated: with neither [form] nor [model] set, a
    single-object POST fails in [_get_form] with [NotImplementedError],
    before the local [entry] is read. *)
Lemma post_unconfigured_not_UnboundLocalError :
  as_list_or_tuple (data (json carol)) = None /\
  fst (ListEndpoint.post ListEndpoint.post_attr ListEndpoint.defaults (json carol) [] ∅
         (start [alice])) = Raise not_specified /\
  fst (ListEndpoint.post ListEndpoint.post_attr ListEndpoint.defaults (json carol) [] ∅
         (start [alice])) <> Raise (UnboundLocalError "entry").
Proof. repeat split. discriminate. Qed.

(** Lookup by primary key in a table of two rows. *)
Lemma get_instance_outcome_witness :
  DetailEndpoint.model people = Some Person /\
  pk3 !! DetailEndpoint.lookup_field people = Some (VInt 3) /\
  objects_get Person "pk" (VInt 3) [alice; bob] = inl bob /\
  DetailEndpoint.get_instance people (json VNone) [] pk3 (start [alice; bob])
  = (Return bob, mkState [alice; bob] [EvResolved bob]).
Proof.
  assert (Hkey : pk3 !! DetailEndpoint.lookup_field people = Some (VInt 3))
    by (vm_compute; reflexivity).
  assert (Hrow : objects_get Person "pk" (VInt 3) [alice; bob] = inl bob)
    by (vm_compute; reflexivity).
  split; [reflexivity|]. split; [exact Hkey|]. split; [exact Hrow|].
  exact (proj1 (proj2 (get_instance_outcome people (json VNone) [] pk3 (start [alice; bob])))
           Person (VInt 3) bob eq_refl Hkey Hrow).
Defined.

(** C4, refuted as stated: with [lookup_field = "name"] and two rows named
    alice, the model is set, the field is among the keyword arguments and
    rows match, yet [get_instance] neither returns an instance nor raises
    the 404 error: [MultipleObjectsReturned] comes out. *)
Lemma get_instance_several_rows :
  let kwargs : Kwargs := {[ "name" := VStr "alice" ]} in
  let r := DetailEndpoint.get_instance people_by_name (json VNone) [] kwargs
             (start [alice; alice2; bob]) in
  is_Some (DetailEndpoint.model people_by_name) /\
  is_Some (kwargs !! DetailEndpoint.lookup_field people_by_name) /\
  filter (fun row => has_field "name" (VStr "alice") row = true) [alice; alice2; bob]
    = [alice; alice2] /\
  fst r = Raise (OrmError MultipleObjectsReturned) /\
  fst r <> Raise (HttpError 404 "Resource Not Found" None) /\
  (forall instance, fst r <> Return instance).
Proof.
  cbv zeta. split; [eexists; reflexivity|]. split; [eexists; vm_compute; reflexivity|].
  split; [vm_compute; reflexivity|].
  assert (Hr : fst (DetailEndpoint.get_instance people_by_name (json VNone) []
                      {[ "name" := VStr "alice" ]} (start [alice; alice2; bob]))
               = Raise (OrmError MultipleObjectsReturned)) by (vm_compute; reflexivity).
  rewrite Hr. repeat split; intros; discriminate.
Qed.

(** Two attributes no form declares are patched onto the row of bob. *)
Lemma patch_witness :
  let request := json (VDict [("age", VInt 30); ("nickname", VStr "bobby")]) in
  let updated : Instance :=
    {[ "pk" := VInt 3; "name" := VStr "bob"; "age" := VInt 30;
       "nickname" := VStr "bobby" ]} in
  DetailEndpoint.get_instance people request [] pk3 (start [alice; bob])
    = (Return bob, mkState [alice; bob] [EvResolved bob]) /\
  List.NoDup ["age"; "nickname"] /\
  (forall k, In k ["age"; "nickname"] -> class_setter k = None) /\
  DetailEndpoint.setattr_items bob [("age", VInt 30); ("nickname", VStr "bobby")]
    !! "save" = None /\
  DetailEndpoint.patch people request [] pk3 (start [alice; bob])
  = (Return (Http200 (to_json (OneObj updated))),
     mkState [alice; updated] [EvResolved bob; EvMutate]).
Proof.
  cbv zeta.
  assert (Hget : DetailEndpoint.get_instance people
                   (json (VDict [("age", VInt 30); ("nickname", VStr "bobby")]))
                   [] pk3 (start [alice; bob])
                 = (Return bob, mkState [alice; bob] [EvResolved bob]))
    by (vm_compute; reflexivity).
  assert (Hnd : List.NoDup ["age"; "nickname"])
    by (apply NoDup_ListNoDup, (bool_decide_unpack _); vm_compute; exact I).
  assert (Hplain : forall k, In k ["age"; "nickname"] -> class_setter k = None)
    by (intros k [<- | [<- | []]]; reflexivity).
  assert (Hsave : DetailEndpoint.setattr_items bob
                    [("age", VInt 30); ("nickname", VStr "bobby")] !! "save" = None)
    by (vm_compute; reflexivity).
  split; [exact Hget|]. split; [exact Hnd|]. split; [exact Hplain|].
  split; [exact Hsave|].
  destruct (patch_assigns_payload_and_saves people _ [] pk3 _ _ bob _
              Hget eq_refl Hnd Hplain)
    as (_ & _ & _ & Hsaved & _).
  apply Hsaved; [exact Hsave | vm_compute; reflexivity].
Defined.

(** C5, refuted as stated: the payload [{"save": "x"}] on a resolvable
    instance. The pair is assigned like any other, and the attribute
    [save] then hides the method: [instance.save()] calls the string,
    [TypeError] is raised, the table keeps its rows and no 200 is
    answered. *)
Lemma patch_save_key_raises_TypeError :
  DetailEndpoint.get_instance people (json (VDict [("save", VStr "x")])) [] pk3
    (start [alice; bob])
  = (Return bob, mkState [alice; bob] [EvResolved bob]) /\
  DetailEndpoint.patch people (json (VDict [("save", VStr "x")])) [] pk3
    (start [alice; bob])
  = (Raise (TypeError "'str' object is not callable"),
     mkState [alice; bob] [EvResolved bob]).
Proof. split; vm_compute; reflexivity. Qed.

(** A full update through the derived form, which declares [name] only:
    the [pk] in the payload is not taken over. *)
Lemma put_witness :
  let request := json (VDict [("name", VStr "robert"); ("pk", VInt 99)]) in
  let updated : Instance := {[ "pk" := VInt 3; "name" := VStr "robert" ]} in
  DetailEndpoint.get_instance people request [] pk3 (start [alice; bob])
    = (Return bob, mkState [alice; bob] [EvResolved bob]) /\
  DetailEndpoint.put people request [] pk3 (start [alice; bob])
    = (Return (Http200 (to_json (OneObj updated))),
       mkState [alice; updated] [EvResolved bob; EvValidate; EvMutate]) /\
  updated !! "pk" = bob !! "pk".
Proof.
  cbv zeta.
  assert (Hget : DetailEndpoint.get_instance people
                   (json (VDict [("name", VStr "robert"); ("pk", VInt 99)])) [] pk3
                   (start [alice; bob])
                 = (Return bob, mkState [alice; bob] [EvResolved bob]))
    by (vm_compute; reflexivity).
  split; [exact Hget|].
  destruct (put_validates_then_saves people _ [] pk3 _ _ bob Hget)
    as (F & HF & Hvalid & _).
  injection HF as <-.
  split.
  - rewrite Hvalid by (vm_compute; reflexivity). vm_compute. reflexivity.
  - vm_compute. reflexivity.
Defined.

(** C6, refuted as stated, on two counts. On the payload [{}] the form is
    not called with the payload: the form that reports what it was bound
    to shows [None], where binding to the payload would show the empty
    object. And a field the form does not cover need not stay unchanged:
    with the form that declares [name] alone and stamps [touched] in its
    [save()], a valid PUT answers 200 with [touched] set, which the row
    of bob did not have. *)
Lemma put_not_as_claimed :
  (fst (DetailEndpoint.put (people_with EchoForm) (json (VDict [])) [] pk3
          (start [alice; bob]))
   = Raise (HttpError 400 "Invalid data" (Some (VDict [("bound_to", VNone)]))) /\
   fst (put_as_specified (people_with EchoForm) (json (VDict [])) [] pk3
          (start [alice; bob]))
   = Raise (HttpError 400 "Invalid data" (Some (VDict [("bound_to", VDict [])]))) /\
   DetailEndpoint.put (people_with EchoForm) (json (VDict [])) [] pk3 (start [alice; bob])
   <> put_as_specified (people_with EchoForm) (json (VDict [])) [] pk3
        (start [alice; bob])) /\
  (bob !! "touched" = None /\
   fst (DetailEndpoint.put (people_with StampForm)
          (json (VDict [("name", VStr "robert")])) [] pk3 (start [alice; bob]))
   = Return (Http200 (VDict [("name", VStr "robert"); ("touched", VBool true);
                             ("pk", VInt 3)]))).
Proof.
  split; [|split; vm_compute; reflexivity].
  split; [vm_compute; reflexivity|]. split; [vm_compute; reflexivity|].
  intros Heq. apply (f_equal fst) in Heq. vm_compute in Heq. discriminate.
Qed.

(** The empty object and an absent payload, same files: the derived form,
    called with [None], misses the required [name]. *)
Lemma put_falsy_payload_witness :
  truthy (data (json (VDict []))) = false /\
  truthy (data (json VNone)) = false /\
  FILES (json VNone) = FILES (json (VDict [])) /\
  DetailEndpoint.get_instance people (json (VDict [])) [] pk3 (start [alice; bob])
    = (Return bob, mkState [alice; bob] [EvResolved bob]) /\
  DetailEndpoint.put people (json (VDict [])) [] pk3 (start [alice; bob])
    = DetailEndpoint.put people (json VNone) [] pk3 (start [alice; bob]) /\
  DetailEndpoint.put people (json (VDict [])) [] pk3 (start [alice; bob])
    = (Raise (HttpError 400 "Invalid data"
                (Some (VDict [("name", VList [VStr "This field is required."])]))),
       mkState [alice; bob] [EvResolved bob; EvValidate]).
Proof.
  assert (Hget : DetailEndpoint.get_instance people (json (VDict [])) [] pk3
                   (start [alice; bob])
                 = (Return bob, mkState [alice; bob] [EvResolved bob]))
    by (vm_compute; reflexivity).
  destruct (put_falsy_payload_bound_to_None people (json (VDict [])) (json VNone)
              [] pk3 (start [alice; bob]) eq_refl eq_refl eq_refl)
    as (Hsame & Hbound).
  destruct (Hbound bob _ Hget) as (F & HF & Hput).
  injection HF as <-.
  do 3 (split; [reflexivity|]). split; [exact Hget|]. split; [exact Hsame|].
  exact Hput.
Defined.

(** C10, refuted as stated: the empty object [{}] is accepted as an update.
    The request carries files (an empty collection, not [None]), so the
    form called with [None] as data is still bound; with no required
    field it is valid, and [put] saves and answers 200. *)
Lemma put_empty_object_accepted :
  truthy (data (json (VDict []))) = false /\
  DetailEndpoint.put (people_with (PersonForm ["name"] [])) (json (VDict [])) [] pk3
    (start [alice; bob])
  = (Return (Http200 (to_json (OneObj bob))),
     mkState [alice; bob] [EvResolved bob; EvValidate; EvMutate]).
Proof. split; [reflexivity | vm_compute; reflexivity]. Qed.

(** A valid PUT and a DELETE of the row of bob, where validation and
    mutation follow the resolution; and a request whose keyword arguments
    do not name the row, where resolution fails and so do the handlers,
    in the state they started from. *)
Lemma resolve_first_witness :
  let robert := json (VDict [("name", VStr "robert")]) in
  trace (snd (DetailEndpoint.put people robert [] pk3 (start [alice; bob])))
    = [EvResolved bob; EvValidate; EvMutate] /\
  guarded false
    (trace (snd (DetailEndpoint.put people robert [] pk3 (start [alice; bob])))) = true /\
  trace (snd (DetailEndpoint.delete people (json VNone) [] pk3 (start [alice; bob])))
    = [EvResolved bob; EvMutate] /\
  guarded false
    (trace (snd (DetailEndpoint.delete people (json VNone) [] pk3 (start [alice; bob]))))
    = true /\
  DetailEndpoint.get_instance people (json carol) [] ∅ (start [alice; bob])
    = (Raise (HttpError 404 "Resource Not Found" None), start [alice; bob]) /\
  DetailEndpoint.patch people (json carol) [] ∅ (start [alice; bob])
    = (Raise (HttpError 404 "Resource Not Found" None), start [alice; bob]) /\
  DetailEndpoint.delete people (json carol) [] ∅ (start [alice; bob])
    = (Raise (HttpError 404 "Resource Not Found" None), start [alice; bob]) /\
  DetailEndpoint.put people (json carol) [] ∅ (start [alice; bob])
    = (Raise (HttpError 404 "Resource Not Found" None), start [alice; bob]).

Proof.
  cbv zeta.
  assert (Hget : DetailEndpoint.get_instance people (json carol) [] ∅ (start [alice; bob])
                 = (Raise (HttpError 404 "Resource Not Found" None), start [alice; bob]))
    by (vm_compute; reflexivity).
  destruct (detail_handlers_resolve_first people_list people
              (json (VDict [("name", VStr "robert")])) [] pk3)
    as (Hput_first & _ & _ & _ & _).
  destruct (detail_handlers_resolve_first people_list people (json VNone) [] pk3)
    as (_ & _ & Hdelete_first & _ & _).
  destruct (detail_handlers_resolve_first people_list people (json carol) [] ∅)
    as (_ & _ & _ & Hfail & _).
  destruct (Hput_first (start [alice; bob])) as (t1 & Ht1 & Hg1 & _).
  destruct (Hdelete_first (start [alice; bob])) as (t2 & Ht2 & Hg2 & _).
  destruct (Hfail _ _ _ Hget) as (Hpatch & Hdelete & Hput & _).
  split; [vm_compute; reflexivity|].
  split; [rewrite Ht1; exact Hg1|].
  split; [vm_compute; reflexivity|].
  split; [rewrite Ht2; exact Hg2|].
  split; [exact Hget|]. split; [exact Hpatch|]. split; [exact Hdelete|].
  apply Hput. right. eexists. reflexivity.
Defined.

(** C7, refuted as stated: a POST of the empty list on a configured
    endpoint answers 201 with no instance resolved and no 404; a PUT on
    an endpoint with neither [form] nor [model] fails without an instance
    resolved and with an error that is not the 404; and with [self.post]
    bound to a function that stores the entry, a batch POST mutates the
    table with no resolution before it. *)
Lemma operations_without_resolution_or_404 :
  ListEndpoint.post ListEndpoint.post_attr people_list (json (VList [])) [] ∅
    (start [alice])
  = (Return (Http201 (VDict [])), start [alice]) /\
  DetailEndpoint.put DetailEndpoint.defaults (json carol) [] pk3 (start [alice; bob])
  = (Raise not_specified, start [alice; bob]) /\
  is_HttpError not_specified = false /\
  trace (snd (ListEndpoint.post (Some store_entry) people_list (json (VList [carol]))
                [] ∅ (start [alice])))
  = [EvMutate] /\
  guarded false [EvMutate] = false.
Proof. repeat split. Qed.

(** ** The further properties run on the example installation *)

(** Another endpoint class, another request, one more keyword argument. *)
Lemma get_instance_reads_only_lookup_witness :
  let kwargs' : Kwargs := {[ "pk" := VInt 3; "format" := VStr "json" ]} in
  DetailEndpoint.model (people_with EchoForm) = DetailEndpoint.model people /\
  DetailEndpoint.lookup_field (people_with EchoForm) = DetailEndpoint.lookup_field people /\
  kwargs' !! DetailEndpoint.lookup_field people = pk3 !! DetailEndpoint.lookup_field people /\
  DetailEndpoint.get_instance (people_with EchoForm) (json carol) [VInt 7] kwargs'
    (start [alice; bob])
  = DetailEndpoint.get_instance people (json VNone) [] pk3 (start [alice; bob]).
Proof.
  cbv zeta.
  assert (Hk : ({[ "pk" := VInt 3; "format" := VStr "json" ]} : Kwargs)
                 !! DetailEndpoint.lookup_field people
               = pk3 !! DetailEndpoint.lookup_field people)
    by (vm_compute; reflexivity).
  split; [reflexivity|]. split; [reflexivity|]. split; [exact Hk|].
  exact (get_instance_reads_only_lookup people (people_with EchoForm) (json VNone)
           (json carol) [] [VInt 7] pk3 _ (start [alice; bob]) eq_refl eq_refl Hk).
Defined.

(** The class defaults, and an endpoint with a form but no model. *)
Lemma unresolvable_requests_witness :
  DetailEndpoint.model formed_only = None /\
  is_Some (DetailEndpoint.form formed_only) /\
  DetailEndpoint.patch formed_only (json carol) [] pk3 (start [alice; bob])
    = (Raise (HttpError 404 "Resource Not Found" None), start [alice; bob]) /\
  DetailEndpoint.put formed_only (json carol) [] pk3 (start [alice; bob])
    = (Raise (HttpError 404 "Resource Not Found" None), start [alice; bob]) /\
  DetailEndpoint.put DetailEndpoint.defaults (json carol) [] pk3 (start [alice; bob])
    = (Raise not_specified, start [alice; bob]).
Proof.
  assert (Hform : is_Some (DetailEndpoint.form formed_only)) by (eexists; reflexivity).
  destruct (unresolvable_requests_fail formed_only (json carol) [] pk3
              (start [alice; bob]) (or_introl eq_refl))
    as (_ & Hpatch & _ & Hput & _).
  destruct (unresolvable_requests_fail (H := django) DetailEndpoint.defaults
              (json carol) [] pk3 (start [alice; bob]) (or_introl eq_refl))
    as (_ & _ & _ & _ & Hput0).
  split; [reflexivity|]. split; [exact Hform|]. split; [exact Hpatch|].
  split; [exact (Hput (or_introl Hform)) | exact (Hput0 eq_refl eq_refl)].
Defined.

(** A payload with one field is truthy. *)
Lemma put_binds_truthy_payload_witness :
  truthy (data (json carol)) = true /\
  DetailEndpoint.put (people_with EchoForm) (json carol) [] pk3 (start [alice; bob])
  = put_as_specified (people_with EchoForm) (json carol) [] pk3 (start [alice; bob]).
Proof.
  split; [reflexivity|].
  exact (put_binds_truthy_payload (people_with EchoForm) (json carol) [] pk3
           (start [alice; bob]) eq_refl).
Defined.

(** A PATCH whose payload is a list. *)
Lemma patch_payload_not_an_object_witness :
  DetailEndpoint.get_instance people (json (VList [carol])) [] pk3 (start [alice; bob])
    = (Return bob, mkState [alice; bob] [EvResolved bob]) /\
  (forall items, data (json (VList [carol])) <> VDict items) /\
  DetailEndpoint.patch people (json (VList [carol])) [] pk3 (start [alice; bob])
  = (Raise (AttributeError "items"), mkState [alice; bob] [EvResolved bob]).
Proof.
  assert (Hget : DetailEndpoint.get_instance people (json (VList [carol])) [] pk3
                   (start [alice; bob])
                 = (Return bob, mkState [alice; bob] [EvResolved bob]))
    by (vm_compute; reflexivity).
  assert (Hdata : forall items, data (json (VList [carol])) <> VDict items)
    by (intros items; discriminate).
  split; [exact Hget|]. split; [exact Hdata|].
  exact (patch_payload_not_an_object people (json (VList [carol])) [] pk3
           (start [alice; bob]) _ bob Hget Hdata).
Defined.

(** [self.post] bound to [store_entry], a batch of two entries. *)
Lemma post_list_all_created_witness :
  as_list_or_tuple (data (json (VList [carol; VDict [("name", VStr "dave")]])))
    = Some [carol; VDict [("name", VStr "dave")]] /\
  exists st',
    ListEndpoint.post (Some store_entry) people_list
      (json (VList [carol; VDict [("name", VStr "dave")]])) [] ∅ (start [alice])
    = (Return (Http201 (VDict [])), st').
Proof.
  split; [reflexivity|].
  apply (post_list_all_created store_entry people_list
           (json (VList [carol; VDict [("name", VStr "dave")]]))
           [carol; VDict [("name", VStr "dave")]] [] ∅ (start [alice]) eq_refl).
  intros entry st0. eexists _, _. split; reflexivity.
Defined.

(** The row of bob is deleted and then asked for. *)
Lemma delete_then_get_witness :
  objects_get Person "pk" (VInt 3) [alice; bob] = inl bob /\
  objects_get Person "pk" (VInt 3) (table_delete bob [alice; bob]) = inr DoesNotExist /\
  DetailEndpoint.delete people (json VNone) [] pk3 (start [alice; bob])
    = (Return (PyData (VDict [])),
       mkState (table_delete bob [alice; bob]) [EvResolved bob; EvMutate]) /\
  DetailEndpoint.get people (json VNone) [] pk3
    (mkState (table_delete bob [alice; bob]) [EvResolved bob; EvMutate])
    = (Raise (HttpError 404 "Resource Not Found" None),
       mkState (table_delete bob [alice; bob]) [EvResolved bob; EvMutate]).
Proof.
  assert (Hkey : pk3 !! DetailEndpoint.lookup_field people = Some (VInt 3))
    by (vm_compute; reflexivity).
  assert (Hfound : objects_get Person "pk" (VInt 3) [alice; bob] = inl bob)
    by (vm_compute; reflexivity).
  assert (Hgone : objects_get Person "pk" (VInt 3) (table_delete bob [alice; bob])
                  = inr DoesNotExist)
    by (vm_compute; reflexivity).
  split; [exact Hfound|]. split; [exact Hgone|].
  exact (delete_then_get_not_found people (json VNone) (json VNone) [] [] pk3
           (start [alice; bob]) Person (VInt 3) bob eq_refl Hkey Hfound Hgone).
Defined.

(** The row of bob is patched and then asked for. *)
Lemma patch_then_get_witness :
  let items := [("age", VInt 30)] in
  let saved : Instance := {[ "pk" := VInt 3; "name" := VStr "bob"; "age" := VInt 30 ]} in
  objects_get Person "pk" (VInt 3) [alice; bob] = inl bob /\
  (forall k, In k (map fst items) -> class_setter k = None) /\
  DetailEndpoint.setattr_items bob items !! "save" = None /\
  instance_save (DetailEndpoint.setattr_items bob items) [alice; bob]
    = (Return saved, [alice; saved]) /\
  objects_get Person "pk" (VInt 3) [alice; saved] = inl saved /\
  exists body after,
    DetailEndpoint.patch people (json (VDict items)) [] pk3 (start [alice; bob])
      = (Return (Http200 body), after) /\
    fst (DetailEndpoint.get people (json VNone) [] pk3 after) = Return (PyData body).
Proof.
  cbv zeta.
  assert (Hkey : pk3 !! DetailEndpoint.lookup_field people = Some (VInt 3))
    by (vm_compute; reflexivity).
  assert (Hfound : objects_get Person "pk" (VInt 3) [alice; bob] = inl bob)
    by (vm_compute; reflexivity).
  assert (Hplain : forall k, In k (map fst [("age", VInt 30)]) -> class_setter k = None)
    by (intros k [<- | []]; reflexivity).
  assert (Hsave : DetailEndpoint.setattr_items bob [("age", VInt 30)] !! "save" = None)
    by (vm_compute; reflexivity).
  assert (Hsaved : instance_save (DetailEndpoint.setattr_items bob [("age", VInt 30)])
                     [alice; bob]
                   = (Return ({[ "pk" := VInt 3; "name" := VStr "bob";
                                 "age" := VInt 30 ]} : Instance),
                      [alice; ({[ "pk" := VInt 3; "name" := VStr "bob";
                                  "age" := VInt 30 ]} : Instance)]))
    by (vm_compute; reflexivity).
  assert (Hlookup : objects_get Person "pk" (VInt 3)
                      [alice; ({[ "pk" := VInt 3; "name" := VStr "bob";
                                  "age" := VInt 30 ]} : Instance)]
                    = inl ({[ "pk" := VInt 3; "name" := VStr "bob";
                              "age" := VInt 30 ]} : Instance))
    by (vm_compute; reflexivity).
  split; [exact Hfound|]. split; [exact Hplain|]. split; [exact Hsave|].
  split; [exact Hsaved|]. split; [exact Hlookup|].
  exact (patch_then_get_same_body people (json (VDict [("age", VInt 30)])) (json VNone)
           [] [] pk3 (start [alice; bob]) Person (VInt 3) bob _ [("age", VInt 30)] _
           eq_refl Hkey Hfound eq_refl Hplain Hsave Hsaved Hlookup).
Defined.

(** The row of bob is replaced through the derived form and then asked for. *)
Lemma put_then_get_witness :
  let request := json (VDict [("name", VStr "robert")]) in
  let bound := PersonForm ["name"] ["name"] (or_None (data request)) (FILES request)
                 (Some bob) in
  objects_get Person "pk" (VInt 3) [alice; bob] = inl bob /\
  is_valid bound [alice; bob] = true /\
  objects_get Person "pk" (VInt 3) (snd (form_save bound [alice; bob]))
    = inl (fst (form_save bound [alice; bob])) /\
  exists body after,
    DetailEndpoint.put people request [] pk3 (start [alice; bob])
      = (Return (Http200 body), after) /\
    fst (DetailEndpoint.get people (json VNone) [] pk3 after) = Return (PyData body).
Proof.
  cbv zeta.
  assert (Hkey : pk3 !! DetailEndpoint.lookup_field people = Some (VInt 3))
    by (vm_compute; reflexivity).
  assert (Hfound : objects_get Person "pk" (VInt 3) [alice; bob] = inl bob)
    by (vm_compute; reflexivity).
  assert (Hvalid : is_valid
            (PersonForm ["name"] ["name"]
               (or_None (data (json (VDict [("name", VStr "robert")]))))
               (FILES (json (VDict [("name", VStr "robert")]))) (Some bob))
            [alice; bob] = true)
    by (vm_compute; reflexivity).
  assert (Hsaved : objects_get Person "pk" (VInt 3)
            (snd (form_save
                    (PersonForm ["name"] ["name"]
                       (or_None (data (json (VDict [("name", VStr "robert")]))))
                       (FILES (json (VDict [("name", VStr "robert")]))) (Some bob))
                    [alice; bob]))
          = inl (fst (form_save
                        (PersonForm ["name"] ["name"]
                           (or_None (data (json (VDict [("name", VStr "robert")]))))
                           (FILES (json (VDict [("name", VStr "robert")]))) (Some bob))
                        [alice; bob])))
    by (vm_compute; reflexivity).
  split; [exact Hfound|]. split; [exact Hvalid|]. split; [exact Hsaved|].
  exact (put_then_get_same_body people (json (VDict [("name", VStr "robert")]))
           (json VNone) [] [] pk3 (start [alice; bob]) Person (VInt 3) bob
           (PersonForm ["name"] ["name"]) eq_refl Hkey Hfound eq_refl Hvalid Hsaved).
Defined.
